(** * SafelyYou device telemetry store: a shallow embedding of [store.go]

    The repository keeps one aggregate record per known device
    ([DeviceStats]) in a map guarded by a reader/writer lock ([Store]).
    Heartbeats and upload samples mutate the record in place; [GetStats]
    derives the uptime percentage and the average upload time from it.

    Go data is modelled as the code has it:
    - [int64] and [time.Duration] are [Z] with two's complement wrap-around
      written out ([Int64.wrap]);
    - [float64] is IEEE 754 binary64 as specified by [SpecFloat], with
      round-to-nearest-even (the only rounding mode Go uses);
    - [time.Time] is the instant it denotes (seconds and nanoseconds since
      January 1, year 1 UTC) together with its optional monotonic reading;
    - the device map is a [gmap string DeviceStats]; the pointers it holds in
      Go are never shared between keys, so in-place mutation is [insert];
    - the methods run in a small state monad over [Store]. *)

From Stdlib Require Import ZArith Lia Bool List QArith Qabs.
From Stdlib Require Import Floats.SpecFloat.
From Stdlib Require Import Ascii.
From stdpp Require Import gmap strings.

Local Open Scope Z_scope.

(** ** Machine integers *)

Module Int64.
Definition min_int : Z := - 2 ^ 63.
Definition max_int : Z := 2 ^ 63 - 1.

(** Two's complement reduction of a mathematical integer to [int64]. *)
Definition wrap (z : Z) : Z := (z + 2 ^ 63) mod 2 ^ 64 - 2 ^ 63.

Definition in_range (z : Z) : Prop := min_int <= z <= max_int.

Definition add (a b : Z) : Z := wrap (a + b).

(** Go's [/] and [%] on integers truncate toward zero. *)
Definition quo (a b : Z) : Z := wrap (Z.quot a b).
Definition rem (a b : Z) : Z := Z.rem a b.
End Int64.

(** ** float64 *)

Module Float64.
Definition prec : Z := 53.
Definition emax : Z := 1024.

Definition float64 : Type := spec_float.

(** [float64(i)] for an integer [i]: the nearest binary64, ties to even. *)
Definition of_int (z : Z) : float64 := binary_normalize prec emax z 0 false.

Definition add : float64 -> float64 -> float64 := SFadd prec emax.
Definition mul : float64 -> float64 -> float64 := SFmul prec emax.
Definition div : float64 -> float64 -> float64 := SFdiv prec emax.
Definition ltb : float64 -> float64 -> bool := SFltb.
Definition leb : float64 -> float64 -> bool := SFleb.

(** The zero value of a [float64] field. *)
Definition zero : float64 := S754_zero false.

Definition is_nan (x : float64) : bool :=
  match x with S754_nan => true | _ => false end.

(** [x] is not a NaN and carries the sign bit [s]. *)
Definition sign_is (s : bool) (x : float64) : bool :=
  match x with
  | S754_zero s' | S754_infinity s' | S754_finite s' _ _ => Bool.eqb s s'
  | S754_nan => false
  end.

Definition is_finite (x : float64) : bool :=
  match x with S754_finite _ _ _ => true | _ => false end.

Definition is_inf (x : float64) : bool :=
  match x with S754_infinity _ => true | _ => false end.

(** The exact rational denoted by a finite float. *)
Definition to_Q (x : float64) : Q :=
  match x with
  | S754_finite s m e =>
      let v := (if s then Z.neg m else Z.pos m) in
      match e with
      | Z0 => inject_Z v
      | Zpos p => inject_Z (v * 2 ^ Zpos p)
      | Zneg p => Qmake v (2 ^ p)%positive
      end
  | _ => 0%Q
  end.
End Float64.

Abbreviation float64 := Float64.float64.

(** ** time.Duration and time.Time *)

Module Duration.
(** A [Duration] is an [int64] count of nanoseconds. *)
Definition Nanosecond : Z := 1.
Definition Second : Z := 1000000000.
Definition Minute : Z := 60 * Second.
Definition Hour : Z := 60 * Minute.

Definition minDuration : Z := Int64.min_int.
Definition maxDuration : Z := Int64.max_int.

(** Clamp a mathematical difference into the representable range. *)
Definition saturate (z : Z) : Z :=
  if z <? minDuration then minDuration
  else if maxDuration <? z then maxDuration
  else z.

(** [func (d Duration) Minutes() float64]:
    [min := d / Minute; nsec := d % Minute;
     return float64(min) + float64(nsec)/(60*1e9)]. *)
Definition Minutes (d : Z) : float64 :=
  let min := Int64.quo d Minute in
  let nsec := Int64.rem d Minute in
  Float64.add (Float64.of_int min)
              (Float64.div (Float64.of_int nsec) (Float64.of_int (60 * 1000000000))).
End Duration.

Module Time.
(** The instant a [time.Time] denotes: [sec] seconds and [nsec]
    nanoseconds since January 1, year 1 00:00:00 UTC (the results of the
    unexported [t.sec()] and [t.nsec()]), and the monotonic clock reading
    when the value carries one.  The location pointer plays no part in the
    operations the store uses and is left out. *)
Record t : Type := mk { sec : Z; nsec : Z; mono : option Z }.

(** The zero value [time.Time{}]. *)
Definition zero : t := mk 0 0 None.

(** A wall-clock time as produced by JSON decoding or [time.Date]. *)
Definition wall (s n : Z) : t := mk s n None.

(** [func (t Time) IsZero() bool { return t.sec() == 0 && t.nsec() == 0 }] *)
Definition IsZero (x : t) : bool := (sec x =? 0) && (nsec x =? 0).

(** [func (t Time) Sub(u Time) Duration]: the duration [t-u]; when both
    carry a monotonic reading the readings are subtracted, otherwise the
    wall-clock instants are.  A result that does not fit a [Duration] is
    replaced by the maximum (or minimum) duration. *)
Definition Sub (x u : t) : Z :=
  match mono x, mono u with
  | Some a, Some b => Duration.saturate (a - b)
  | _, _ =>
      Duration.saturate
        ((sec x - sec u) * Duration.Second + (nsec x - nsec u))
  end.

(** [func (t Time) Add(d Duration) Time], on wall-clock times whose seconds
    stay in range: the nanosecond field is renormalised into [0, 1e9). *)
Definition Add (x : t) (d : Z) : t :=
  let dsec := Z.quot d 1000000000 in
  let n := nsec x + Z.rem d 1000000000 in
  let '(dsec, n) :=
    if 1000000000 <=? n then (dsec + 1, n - 1000000000)
    else if n <? 0 then (dsec - 1, n + 1000000000)
    else (dsec, n) in
  mk (sec x + dsec) n
     (match mono x with Some m => Some (m + d) | None => None end).

End Time.

(** ** The aggregate record and the store *)

(** [type DeviceStats struct] *)
Record DeviceStats : Type := mkDeviceStats {
  ID : string;
  HeartbeatCount : Z;            (* int64 *)
  FirstHeartbeat : Time.t;
  LastHeartbeat : Time.t;
  UploadCount : Z;               (* int64 *)
  UploadTimeSum : Z              (* time.Duration *)
}.

(** [&DeviceStats{ID: deviceID}]: every other field has its zero value. *)
Definition newDeviceStats (deviceID : string) : DeviceStats :=
  mkDeviceStats deviceID 0 Time.zero Time.zero 0 0.

(** [type Store struct]: the lock is modelled where interleavings matter
    (module [Concurrent] below); here a method body is one atomic step. *)
Record Store : Type := mkStore { devices : gmap string DeviceStats }.

(** [func NewStore() *Store] *)
Definition NewStore : Store := mkStore ∅.

(** [type StatsResult struct] *)
Record StatsResult : Type := mkStatsResult {
  HasHeartbeats : bool;
  HasUploads : bool;
  Uptime : float64;
  AvgUploadTime : Z              (* time.Duration *)
}.

(** [StatsResult{}] *)
Definition emptyStatsResult : StatsResult :=
  mkStatsResult false false Float64.zero 0.

(** ** The state monad of store methods *)

Definition M (A : Type) : Type := Store -> A * Store.

Definition ret {A} (a : A) : M A := fun s => (a, s).
Definition bind {A B} (m : M A) (k : A -> M B) : M B :=
  fun s => let '(a, s') := m s in k a s'.
Definition get_devices : M (gmap string DeviceStats) := fun s => (devices s, s).
Definition put_device (k : string) (d : DeviceStats) : M unit :=
  fun s => (tt, mkStore (<[k := d]> (devices s))).

#[global] Instance M_ret : MRet M := @ret.
#[global] Instance M_bind : MBind M := fun A B k m => bind m k.

Definition exec {A} (m : M A) (s : Store) : Store := snd (m s).
Definition eval {A} (m : M A) (s : Store) : A := fst (m s).

(** ** Store methods *)

(** [LoadDevicesFromCSV] after the file has been read and parsed: the rows
    after the header whose first column is non-empty each register a fresh
    zero-valued record.  Opening and parsing the file is outside the store. *)
Definition load_row (row : list string) : M unit :=
  match row with
  | deviceID :: _ =>
      if decide (deviceID = "") then ret tt
      else put_device deviceID (newDeviceStats deviceID)
  | [] => ret tt
  end.

Fixpoint load_rows (rows : list (list string)) : M unit :=
  match rows with
  | [] => ret tt
  | row :: rest => load_row row ;; load_rows rest
  end.

Definition LoadDevices (records : list (list string)) : M unit :=
  load_rows (tail records).

(** [func (s *Store) DeviceExists(deviceID string) bool] *)
Definition DeviceExists (deviceID : string) : M bool :=
  ds ← get_devices;
  match ds !! deviceID with
  | Some _ => ret true
  | None => ret false
  end.

(** The three assignments of [RecordHeartbeat] on the record found. *)
Definition heartbeat_update (sentAt : Time.t) (device : DeviceStats) : DeviceStats :=
  let count := Int64.add (HeartbeatCount device) 1 in
  let first :=
    if Time.IsZero (FirstHeartbeat device) then sentAt
    else FirstHeartbeat device in
  mkDeviceStats (ID device) count first sentAt
                (UploadCount device) (UploadTimeSum device).

(** [func (s *Store) RecordHeartbeat(deviceID string, sentAt time.Time) bool] *)
Definition RecordHeartbeat (deviceID : string) (sentAt : Time.t) : M bool :=
  ds ← get_devices;
  match ds !! deviceID with
  | None => ret false
  | Some device =>
      put_device deviceID (heartbeat_update sentAt device) ;;
      ret true
  end.

(** The two assignments of [RecordUploadStat] on the record found. *)
Definition upload_update (uploadTime : Z) (device : DeviceStats) : DeviceStats :=
  mkDeviceStats (ID device) (HeartbeatCount device)
                (FirstHeartbeat device) (LastHeartbeat device)
                (Int64.add (UploadCount device) 1)
                (Int64.add (UploadTimeSum device) uploadTime).

(** [func (s *Store) RecordUploadStat(deviceID string, uploadTime time.Duration) bool] *)
Definition RecordUploadStat (deviceID : string) (uploadTime : Z) : M bool :=
  ds ← get_devices;
  match ds !! deviceID with
  | None => ret false
  | Some device =>
      put_device deviceID (upload_update uploadTime device) ;;
      ret true
  end.

(** The constants [100.0] (also written [100]) and [1] of [GetStats]. *)
Definition f100 : float64 := Float64.of_int 100.
Definition f1 : float64 := Float64.of_int 1.

(** The uptime formula of the [else] branch, before the cap. *)
Definition uptime_raw (device : DeviceStats) : float64 :=
  let minutesBetween :=
    Float64.add
      (Duration.Minutes (Time.Sub (LastHeartbeat device) (FirstHeartbeat device)))
      f1 in
  Float64.mul
    (Float64.div (Float64.of_int (HeartbeatCount device)) minutesBetween)
    f100.

(** [if result.Uptime > 100.0 { result.Uptime = 100.0 }] *)
Definition cap100 (x : float64) : float64 :=
  if Float64.ltb f100 x then f100 else x.

(** The derivation of [GetStats] from the record found. *)
Definition stats_of (device : DeviceStats) : StatsResult :=
  let result := emptyStatsResult in
  let result :=
    if 0 <? HeartbeatCount device then
      if HeartbeatCount device =? 1 then
        mkStatsResult true (HasUploads result) f100 (AvgUploadTime result)
      else
        mkStatsResult true (HasUploads result)
                      (cap100 (uptime_raw device)) (AvgUploadTime result)
    else result in
  let result :=
    if 0 <? UploadCount device then
      mkStatsResult (HasHeartbeats result) true (Uptime result)
                    (Int64.quo (UploadTimeSum device) (UploadCount device))
    else result in
  result.

(** [func (s *Store) GetStats(deviceID string) (StatsResult, bool)] *)
Definition GetStats (deviceID : string) : M (StatsResult * bool) :=
  ds ← get_devices;
  match ds !! deviceID with
  | None => ret (emptyStatsResult, false)
  | Some device => ret (stats_of device, true)
  end.

(** [func (s *Store) DeviceCount() int] *)
Definition DeviceCount : M nat :=
  ds ← get_devices; ret (size ds).

(** ** Call sequences *)

(** The two mutating calls a client can make. *)
Inductive Op : Type :=
| OpHeartbeat (deviceID : string) (sentAt : Time.t)
| OpUpload (deviceID : string) (uploadTime : Z).

Definition step (op : Op) : M bool :=
  match op with
  | OpHeartbeat deviceID sentAt => RecordHeartbeat deviceID sentAt
  | OpUpload deviceID uploadTime => RecordUploadStat deviceID uploadTime
  end.

Fixpoint run (ops : list Op) (s : Store) : Store :=
  match ops with
  | [] => s
  | op :: rest => run rest (exec (step op) s)
  end.

(** The store as the server starts serving: the roster has been loaded into
    a new store. *)
Definition initial (records : list (list string)) : Store :=
  exec (LoadDevices records) NewStore.

Definition test_rows : list (list string) :=
  [["device_id"]; ["device-1"]; ["device-2"]].

Definition secs (n : Z) : Z := n * Duration.Second.
Definition mins (n : Z) : Z := n * Duration.Minute.

(** 2024-01-15T10:00:00Z, the base instant of the repository's tests. *)
Definition baseTime : Time.t := Time.wall 63840909600 0.


(** The effect of one call on the record of a device, seen from any key. *)
Definition op_update (op : Op) : string * (DeviceStats -> DeviceStats) :=
  match op with
  | OpHeartbeat deviceID sentAt => (deviceID, heartbeat_update sentAt)
  | OpUpload deviceID uploadTime => (deviceID, upload_update uploadTime)
  end.

(** Every record of a freshly loaded store is the zero record of its key. *)
Definition fresh (s : Store) : Prop :=
  forall k d, devices s !! k = Some d -> d = newDeviceStats k.

(** ** Histories of a device *)

(** The record of [deviceID] after the calls [ops], starting from [device]:
    only the calls addressed to [deviceID] touch it. *)
Fixpoint replay (deviceID : string) (ops : list Op) (device : DeviceStats)
  : DeviceStats :=
  match ops with
  | [] => device
  | op :: rest =>
      replay deviceID rest
        (if decide (deviceID = fst (op_update op))
         then snd (op_update op) device else device)
  end.

(** How many heartbeats, and how many uploads, [ops] addresses to a device. *)
Fixpoint heartbeats_recorded (deviceID : string) (ops : list Op) : nat :=
  match ops with
  | [] => 0%nat
  | OpHeartbeat k _ :: rest =>
      ((if decide (deviceID = k) then 1 else 0) + heartbeats_recorded deviceID rest)%nat
  | OpUpload _ _ :: rest => heartbeats_recorded deviceID rest
  end.

Fixpoint uploads_recorded (deviceID : string) (ops : list Op) : nat :=
  match ops with
  | [] => 0%nat
  | OpUpload k _ :: rest =>
      ((if decide (deviceID = k) then 1 else 0) + uploads_recorded deviceID rest)%nat
  | OpHeartbeat _ _ :: rest => uploads_recorded deviceID rest
  end.

(** The mathematical sum of the durations uploaded for a device. *)
Fixpoint upload_total (deviceID : string) (ops : list Op) : Z :=
  match ops with
  | [] => 0
  | OpUpload k u :: rest =>
      (if decide (deviceID = k) then u else 0) + upload_total deviceID rest
  | OpHeartbeat _ _ :: rest => upload_total deviceID rest
  end.

(** What the request gateway lets through ([validateHeartbeatRequest],
    [validateUploadStatRequest] in handlers.go): a heartbeat's [sent_at] is
    not the zero instant, an upload time is positive. *)
Definition stamps_nonzero (ops : list Op) : bool :=
  forallb (fun op => match op with
                     | OpHeartbeat _ sentAt => negb (Time.IsZero sentAt)
                     | OpUpload _ _ => true
                     end) ops.

Definition durations_positive (ops : list Op) : bool :=
  forallb (fun op => match op with
                     | OpHeartbeat _ _ => true
                     | OpUpload _ uploadTime => 0 <? uploadTime
                     end) ops.

(** Scenarios of the repository's store tests. *)
Definition scen_uploads : Store :=
  run [OpUpload "device-1" (secs 5);
       OpUpload "device-1" (secs 10);
       OpUpload "device-1" (secs 15)]
      (initial test_rows).

Definition scen_combined : Store :=
  run [OpHeartbeat "device-1" baseTime;
       OpHeartbeat "device-1" (Time.Add baseTime (mins 1));
       OpUpload "device-1" (secs 5);
       OpUpload "device-1" (secs 15)]
      (initial test_rows).

(** ** The claims as the specification words them *)

(** The heartbeat contract read literally: on every store reached from a
    loaded roster, a heartbeat for a known device adds one to the count,
    stores [sentAt] as first heartbeat exactly when no heartbeat was recorded
    before, and stores it as last heartbeat. *)
Definition heartbeat_contract_as_stated : Prop :=
  forall (records : list (list string)) (ops : list Op) (deviceID : string)
         (device : DeviceStats) (sentAt : Time.t),
    let s := run ops (initial records) in
    devices s !! deviceID = Some device ->
    eval (RecordHeartbeat deviceID sentAt) s = true /\
    exists device',
      devices (exec (RecordHeartbeat deviceID sentAt) s) !! deviceID = Some device' /\
      HeartbeatCount device' = HeartbeatCount device + 1 /\
      (heartbeats_recorded deviceID ops = 0%nat -> FirstHeartbeat device' = sentAt) /\
      (heartbeats_recorded deviceID ops <> 0%nat ->
       FirstHeartbeat device' = FirstHeartbeat device) /\
      LastHeartbeat device' = sentAt.

(** The upload invariant read literally. *)
Definition upload_invariant_as_stated : Prop :=
  forall (records : list (list string)) (ops : list Op) (deviceID : string)
         (device : DeviceStats),
    devices (run ops (initial records)) !! deviceID = Some device ->
    (UploadCount device = 0 <-> UploadTimeSum device = 0).

(** Five heartbeats at minute offsets 0, 2, 5, 8 and 10 from [base]. *)
Definition scen_offsets (base : Time.t) : Store :=
  run [OpHeartbeat "device-1" base;
       OpHeartbeat "device-1" (Time.Add base (mins 2));
       OpHeartbeat "device-1" (Time.Add base (mins 5));
       OpHeartbeat "device-1" (Time.Add base (mins 8));
       OpHeartbeat "device-1" (Time.Add base (mins 10))]
      (initial test_rows).

(** The binary64 nearest to (5/11)*100 that the formula produces. *)
Definition uptime_5_in_11 : float64 := S754_finite false 6397158561605818 (-47).

(** Three heartbeats within the same minute: [base], ten and twenty seconds
    later. *)
Definition scen_same_minute (base : Time.t) : Store :=
  run [OpHeartbeat "device-1" base;
       OpHeartbeat "device-1" (Time.Add base (secs 10));
       OpHeartbeat "device-1" (Time.Add base (secs 20))]
      (initial test_rows).

(** The worked example of the uptime formula read literally: whatever the
    instant the minute offsets are counted from, the five heartbeats give an
    uptime within 0.1 of 500/11. *)
Definition uptime_example_as_stated : Prop :=
  forall base : Time.t,
    (Qabs (Float64.to_Q
             (Uptime (fst (eval (GetStats "device-1") (scen_offsets base))))
           - (500 # 11)) < (1 # 10))%Q.

(** Two heartbeats, the second ten minutes before the first. *)
Definition scen_backwards : Store :=
  run [OpHeartbeat "device-1" (Time.Add baseTime (mins 10));
       OpHeartbeat "device-1" baseTime]
      (initial test_rows).

(** The range of the uptime percentage read literally: on every store
    reached from a loaded roster the reported uptime lies in [0, 100]. *)
Definition uptime_range_as_stated : Prop :=
  forall (records : list (list string)) (ops : list Op) (deviceID : string)
         (result : StatsResult),
    eval (GetStats deviceID) (run ops (initial records)) = (result, true) ->
    Float64.leb Float64.zero (Uptime result) = true /\
    Float64.leb (Uptime result) f100 = true.

(** ** Concurrent callers of RecordHeartbeat *)

Module Concurrent.
(** Program points of one [RecordHeartbeat] call; between two points lies
    one access to the lock or to the shared record. *)
Inductive PC : Type :=
| AtLock                    (* s.mu.Lock() *)
| AtLookup                  (* device, exists := s.devices[deviceID] *)
| AtLoadCount               (* read device.HeartbeatCount *)
| AtStoreCount (old : Z)    (* write device.HeartbeatCount = old + 1 *)
| AtFirst                   (* if device.FirstHeartbeat.IsZero() { ... } *)
| AtLast                    (* device.LastHeartbeat = sentAt *)
| AtUnlock (result : bool)  (* deferred s.mu.Unlock() *)
| Done (result : bool).     (* returned *)

(** A goroutine running [RecordHeartbeat(target, sentAt)]. *)
Record Thread : Type := mkThread {
  target : string;
  sentAt : Time.t;
  pc : PC
}.

(** The store as the goroutines share it: the write lock of [mu] and the
    device map. *)
Record Config : Type := mkConfig {
  mu : bool;
  shared : Store;
  threads : list Thread
}.

Definition set_count (n : Z) (d : DeviceStats) : DeviceStats :=
  mkDeviceStats (ID d) n (FirstHeartbeat d) (LastHeartbeat d)
                (UploadCount d) (UploadTimeSum d).

Definition set_first_if_zero (t : Time.t) (d : DeviceStats) : DeviceStats :=
  if Time.IsZero (FirstHeartbeat d)
  then mkDeviceStats (ID d) (HeartbeatCount d) t (LastHeartbeat d)
                     (UploadCount d) (UploadTimeSum d)
  else d.

Definition set_last (t : Time.t) (d : DeviceStats) : DeviceStats :=
  mkDeviceStats (ID d) (HeartbeatCount d) (FirstHeartbeat d) t
                (UploadCount d) (UploadTimeSum d).

(** Mutation through the pointer the map holds for [k]. *)
Definition through (k : string) (f : DeviceStats -> DeviceStats) (s : Store) : Store :=
  mkStore (alter f k (devices s)).

(** One step of a goroutine: the new lock state, store and program point,
    or [None] when the goroutine cannot move (it waits for the lock, or has
    returned). *)
Definition thread_step (c : Config) (t : Thread) : option (bool * Store * PC) :=
  match pc t with
  | AtLock => if mu c then None else Some (true, shared c, AtLookup)
  | AtLookup =>
      match devices (shared c) !! target t with
      | Some _ => Some (mu c, shared c, AtLoadCount)
      | None => Some (mu c, shared c, AtUnlock false)
      end
  | AtLoadCount =>
      match devices (shared c) !! target t with
      | Some d => Some (mu c, shared c, AtStoreCount (HeartbeatCount d))
      | None => None
      end
  | AtStoreCount old =>
      Some (mu c, through (target t) (set_count (Int64.add old 1)) (shared c), AtFirst)
  | AtFirst =>
      Some (mu c, through (target t) (set_first_if_zero (sentAt t)) (shared c), AtLast)
  | AtLast =>
      Some (mu c, through (target t) (set_last (sentAt t)) (shared c), AtUnlock true)
  | AtUnlock result => Some (false, shared c, Done result)
  | Done _ => None
  end.

(** The scheduler lets goroutine [i] take one step. *)
Definition sched_step (i : nat) (c : Config) : option Config :=
  match threads c !! i with
  | Some t =>
      match thread_step c t with
      | Some (m, s, p) =>
          Some (mkConfig m s (<[i := mkThread (target t) (sentAt t) p]> (threads c)))
      | None => None
      end
  | None => None
  end.

(** An interleaving is the list of goroutines scheduled, in order. *)
Fixpoint run_schedule (sched : list nat) (c : Config) : option Config :=
  match sched with
  | [] => Some c
  | i :: rest =>
      match sched_step i c with
      | Some c' => run_schedule rest c'
      | None => None
      end
  end.

Definition is_done (t : Thread) : bool :=
  match pc t with Done _ => true | _ => false end.

Definition returned_true (t : Thread) : bool :=
  match pc t with Done true => true | _ => false end.

Definition all_done (c : Config) : bool := forallb is_done (threads c).

(** [N] goroutines about to call [RecordHeartbeat] for the same device, one
    per timestamp, on an unlocked store. *)
Definition start (deviceID : string) (stamps : list Time.t) (s : Store) : Config :=
  mkConfig false s (map (fun t => mkThread deviceID t AtLock) stamps).

(** Whether the goroutine holds the lock, whether its increment is already
    written, and how many steps it still has to take. *)
Definition in_cs (t : Thread) : Z :=
  match pc t with AtLock | Done _ => 0 | _ => 1 end.

Definition counted (t : Thread) : Z :=
  match pc t with
  | AtFirst | AtLast | AtUnlock true | Done true => 1
  | _ => 0
  end.

Definition remaining (t : Thread) : nat :=
  match pc t with
  | AtLock => 7 | AtLookup => 6 | AtLoadCount => 5 | AtStoreCount _ => 4
  | AtFirst => 3 | AtLast => 2 | AtUnlock _ => 1 | Done _ => 0
  end.

Definition total {A} (f : A -> Z) (l : list A) : Z :=
  foldr (fun t acc => f t + acc) 0 l.

Definition fuel (c : Config) : nat :=
  foldr (fun t acc => (remaining t + acc)%nat) 0%nat (threads c).

(** What holds of a goroutine for the device [k] while the shared record is
    [d]: a loaded count is still the stored one, and the call is not on its
    not-found path. *)
(** The configuration an interleaving ends in, [c] itself if it gets stuck. *)
Definition outcome (sched : list nat) (c : Config) : Config :=
  default c (run_schedule sched c).

Definition good (k : string) (d : DeviceStats) (t : Thread) : Prop :=
  target t = k /\
  match pc t with
  | AtStoreCount old => old = HeartbeatCount d
  | AtUnlock false | Done false => False
  | _ => True
  end.

(** The invariant of every interleaving that starts with count [c0]: the
    stored count is [c0] plus the increments written so far, and the lock is
    held exactly when one goroutine is between [Lock] and [Unlock]. *)
Definition Inv (k : string) (c0 : Z) (c : Config) : Prop :=
  exists d,
    devices (shared c) !! k = Some d /\
    HeartbeatCount d = Int64.wrap (c0 + total counted (threads c)) /\
    total in_cs (threads c) = (if mu c then 1 else 0) /\
    Forall (good k d) (threads c).
End Concurrent.

(** Three goroutines, scheduled third, first, second. *)
Definition three_stamps : list Time.t :=
  [baseTime; Time.Add baseTime (mins 1); Time.Add baseTime (mins 2)].

Definition three_schedule : list nat :=
  (replicate 7 2 ++ replicate 7 0 ++ replicate 7 1)%nat.

(** ** The request gateway (handlers.go) *)

(** [func (t Time) After(u Time) bool] *)
Definition Time_After (x u : Time.t) : bool :=
  match Time.mono x, Time.mono u with
  | Some a, Some b => b <? a
  | _, _ =>
      (Time.sec u <? Time.sec x)
      || ((Time.sec x =? Time.sec u) && (Time.nsec u <? Time.nsec x))
  end.

(** [strings.Split(s, "/")]: the pieces of [s] between slashes; a string
    with [n] slashes has [n+1] pieces. *)
Fixpoint split_slash (s : string) : list string :=
  match s with
  | EmptyString => [EmptyString]
  | String c rest =>
      if Ascii.eqb c "/"%char then EmptyString :: split_slash rest
      else match split_slash rest with
           | part :: parts => String c part :: parts
           | [] => [String c EmptyString]
           end
  end.

(** [strings.HasSuffix(s, suffix)]:
    [len(s) >= len(suffix) && s[len(s)-len(suffix):] == suffix]. *)
Definition HasSuffix (s suffix : string) : bool :=
  (String.length suffix <=? String.length s)%nat
  && String.eqb
       (String.substring (String.length s - String.length suffix)
                  (String.length suffix) s)
       suffix.

Fixpoint no_slash (s : string) : bool :=
  match s with
  | EmptyString => true
  | String c rest => negb (Ascii.eqb c "/"%char) && no_slash rest
  end.

(** [func extractDeviceID(path string) string] *)
Definition extractDeviceID (path : string) : string :=
  let parts := split_slash path in
  if (5 <=? length parts)%nat then nth 4 parts EmptyString else EmptyString.

(** [type HeartbeatRequest struct] and [type UploadStatRequest struct], as
    [json.Decode] fills them in; [UploadTime] is in nanoseconds. *)
Record HeartbeatRequest : Type := mkHeartbeatRequest { hb_SentAt : Time.t }.

Record UploadStatRequest : Type := mkUploadStatRequest {
  up_SentAt : Time.t;
  up_UploadTime : Z              (* int64 *)
}.

(** What a handler writes: nothing (status only), an [ErrorResponse], a
    [StatsResponse] (whose duration is rendered by [Duration.String] when
    encoded), or the plain text of [http.NotFound]. *)
Inductive Payload : Type :=
| NoBody
| ErrorBody (msg : string)
| StatsBody (uptime : float64) (avgUploadTime : Z)
| PageNotFound.

Record Response : Type := mkResponse { status : Z; payload : Payload }.

Definition StatusOK : Z := 200.
Definition StatusNoContent : Z := 204.
Definition StatusBadRequest : Z := 400.
Definition StatusNotFound : Z := 404.
Definition StatusInternalServerError : Z := 500.

(** [func writeError(w, status, msg)] *)
Definition writeError (st : Z) (msg : string) : Response :=
  mkResponse st (ErrorBody msg).

(** [const maxUploadTime = int64(time.Hour)] *)
Definition maxUploadTime : Z := Duration.Hour.

(** [func validateHeartbeatRequest(req *HeartbeatRequest) error]; [now] is
    the value [time.Now()] returns during the call, [None] is [nil]. *)
Definition validateHeartbeatRequest (req : HeartbeatRequest) (now : Time.t)
  : option string :=
  if Time.IsZero (hb_SentAt req) then Some "sent_at is required"
  else if Time_After (hb_SentAt req) (Time.Add now Duration.Minute)
       then Some "sent_at cannot be in the future"
       else None.

(** [func validateUploadStatRequest(req *UploadStatRequest) error] *)
Definition validateUploadStatRequest (req : UploadStatRequest) : option string :=
  if up_UploadTime req <=? 0 then Some "upload_time must be positive"
  else if maxUploadTime <? up_UploadTime req
       then Some "upload_time exceeds maximum"
       else None.

(** [type Server struct]: the store is the state of the monad; [configErr]
    holds the message of the error, if any. *)
Record Server : Type := NewServer { configErr : option string }.

Definition configError (e : string) : Response :=
  writeError StatusInternalServerError ("server configuration error: " ++ e).

(** [func (s *Server) HandleHeartbeat(w, r)]; [body] is what decoding the
    request body into a [HeartbeatRequest] gives, [None] when it fails. *)
Definition HandleHeartbeat (srv : Server) (path : string)
    (body : option HeartbeatRequest) (now : Time.t) : M Response :=
  match configErr srv with
  | Some e => ret (configError e)
  | None =>
      let deviceID := extractDeviceID path in
      found ← DeviceExists deviceID;
      if negb found then ret (writeError StatusNotFound "device not found")
      else match body with
           | None => ret (writeError StatusBadRequest "invalid JSON")
           | Some req =>
               match validateHeartbeatRequest req now with
               | Some err => ret (writeError StatusBadRequest err)
               | None =>
                   RecordHeartbeat deviceID (hb_SentAt req) ;;
                   ret (mkResponse StatusNoContent NoBody)
               end
           end
  end.

(** [func (s *Server) HandlePostStats(w, r)] *)
Definition HandlePostStats (srv : Server) (path : string)
    (body : option UploadStatRequest) : M Response :=
  match configErr srv with
  | Some e => ret (configError e)
  | None =>
      let deviceID := extractDeviceID path in
      found ← DeviceExists deviceID;
      if negb found then ret (writeError StatusNotFound "device not found")
      else match body with
           | None => ret (writeError StatusBadRequest "invalid JSON")
           | Some req =>
               match validateUploadStatRequest req with
               | Some err => ret (writeError StatusBadRequest err)
               | None =>
                   RecordUploadStat deviceID (up_UploadTime req) ;;
                   ret (mkResponse StatusNoContent NoBody)
               end
           end
  end.

(** [func (s *Server) HandleGetStats(w, r)] *)
Definition HandleGetStats (srv : Server) (path : string) : M Response :=
  match configErr srv with
  | Some e => ret (configError e)
  | None =>
      let deviceID := extractDeviceID path in
      '(result, found) ← GetStats deviceID;
      if negb found then ret (writeError StatusNotFound "device not found")
      else if negb (HasHeartbeats result) && negb (HasUploads result)
           then ret (mkResponse StatusNoContent NoBody)
           else ret (mkResponse StatusOK
                       (StatsBody (Uptime result) (AvgUploadTime result)))
  end.

(** An incoming request: method, path, its body as each decoder reads it,
    and the clock at the time it is handled. *)
Record Request : Type := mkRequest {
  req_method : string;
  req_path : string;
  req_heartbeat : option HeartbeatRequest;
  req_upload : option UploadStatRequest;
  req_now : Time.t
}.

(** The function literal [Router] registers with its mux for the pattern
    [/api/v1/devices/]: what happens to a request once the mux has handed
    it over.  The mux itself is in [Router], below. *)
Definition route (srv : Server) (r : Request) : M Response :=
  if HasSuffix (req_path r) "/heartbeat" && String.eqb (req_method r) "POST"
  then HandleHeartbeat srv (req_path r) (req_heartbeat r) (req_now r)
  else if HasSuffix (req_path r) "/stats" then
    if String.eqb (req_method r) "POST"
    then HandlePostStats srv (req_path r) (req_upload r)
    else if String.eqb (req_method r) "GET"
         then HandleGetStats srv (req_path r)
         else ret (mkResponse StatusNotFound PageNotFound)
  else ret (mkResponse StatusNotFound PageNotFound).

(** The registered function handling a sequence of requests one after the
    other. *)
Fixpoint serve (srv : Server) (rs : list Request) : M (list Response) :=
  match rs with
  | [] => ret []
  | r :: rest =>
      resp ← route srv r;
      resps ← serve srv rest;
      ret (resp :: resps)
  end.

(** The store call a request handed to the registered function asks for
    once it has passed the method and suffix tests, decoding and validation.
    Whether the mux hands the request over, and whether the device exists
    (for an unknown device the handler answers 404 without making the call,
    which would change nothing), are added in [Router_call]. *)
Definition effect_of (srv : Server) (r : Request) : option Op :=
  match configErr srv with
  | Some _ => None
  | None =>
      if HasSuffix (req_path r) "/heartbeat" && String.eqb (req_method r) "POST"
      then match req_heartbeat r with
           | Some req =>
               match validateHeartbeatRequest req (req_now r) with
               | None => Some (OpHeartbeat (extractDeviceID (req_path r))
                                           (hb_SentAt req))
               | Some _ => None
               end
           | None => None
           end
      else if HasSuffix (req_path r) "/stats" && String.eqb (req_method r) "POST"
      then match req_upload r with
           | Some req =>
               match validateUploadStatRequest req with
               | None => Some (OpUpload (extractDeviceID (req_path r))
                                        (up_UploadTime req))
               | Some _ => None
               end
           | None => None
           end
      else None
  end.

Definition effects (srv : Server) (rs : list Request) : list Op :=
  omap (effect_of srv) rs.

(** Upload times the gateway lets through lie in (0, 1h]. *)
Definition durations_bounded (ops : list Op) : bool :=
  forallb (fun op => match op with
                     | OpHeartbeat _ _ => true
                     | OpUpload _ uploadTime =>
                         (0 <? uploadTime) && (uploadTime <=? maxUploadTime)
                     end) ops.

(** ** The router *)

(** [func (s *Server) Router() http.Handler] creates an [http.ServeMux] and
    registers one function with it, for the pattern [/api/v1/devices/].
    What the mux does with a request before that function runs is the code
    of [net/http]: it is the parameter [mux] here.  [mux r = Some resp]: the
    mux answers [r] itself with [resp] (the 404 page for a path outside the
    pattern, a redirect for a path it cleans) and the registered function
    does not run; [mux r = None]: the mux calls the registered function on
    [r]. *)
Definition ServeMux : Type := Request -> option Response.

Definition Router (mux : ServeMux) (srv : Server) (r : Request) : M Response :=
  match mux r with
  | Some resp => ret resp
  | None => route srv r
  end.

(** The requests for which the registered function calls a handler: POST on
    a path ending in [/heartbeat], POST or GET on a path ending in
    [/stats]. *)
Definition routed (r : Request) : bool :=
  HasSuffix (req_path r) "/heartbeat" && String.eqb (req_method r) "POST"
  || HasSuffix (req_path r) "/stats"
     && (String.eqb (req_method r) "POST" || String.eqb (req_method r) "GET").

(** The router handling a sequence of requests one after the other. *)
Fixpoint serve_Router (mux : ServeMux) (srv : Server) (rs : list Request)
  : M (list Response) :=
  match rs with
  | [] => ret []
  | r :: rest =>
      resp ← Router mux srv r;
      resps ← serve_Router mux srv rest;
      ret (resp :: resps)
  end.

Definition op_device (op : Op) : string :=
  match op with
  | OpHeartbeat deviceID _ => deviceID
  | OpUpload deviceID _ => deviceID
  end.

(** The store call the router makes for [r] on the store [s], if any: the
    mux hands [r] over, the registered function selects a POST handler,
    there is no configuration error, [DeviceExists] answers true on [s], the
    body decodes and passes validation. *)
Definition Router_call (mux : ServeMux) (srv : Server) (r : Request) (s : Store)
  : option Op :=
  match mux r with
  | Some _ => None
  | None =>
      match effect_of srv r with
      | Some op => if eval (DeviceExists (op_device op)) s then Some op else None
      | None => None
      end
  end.

(** The store calls made while a sequence of requests is served from [s],
    in order; each request meets the store the calls before it have left. *)
Fixpoint Router_calls (mux : ServeMux) (srv : Server) (rs : list Request)
    (s : Store) : list Op :=
  match rs with
  | [] => []
  | r :: rest =>
      match Router_call mux srv r s with
      | Some op => op :: Router_calls mux srv rest (exec (step op) s)
      | None => Router_calls mux srv rest s
      end
  end.

(** A request paired with its response: a POST the mux handed over and that
    was answered 204. *)
Definition accepted (mux : ServeMux) (p : Request * Response) : bool :=
  match mux (fst p) with
  | Some _ => false
  | None => String.eqb (req_method (fst p)) "POST" && (status (snd p) =? 204)
  end.

(** ** More on histories *)

(** The timestamps of the first and of the latest heartbeat [ops] addresses
    to a device. *)
Fixpoint first_stamp (deviceID : string) (ops : list Op) : option Time.t :=
  match ops with
  | [] => None
  | OpHeartbeat k sentAt :: rest =>
      if decide (deviceID = k) then Some sentAt else first_stamp deviceID rest
  | OpUpload _ _ :: rest => first_stamp deviceID rest
  end.

Fixpoint last_stamp (deviceID : string) (ops : list Op) : option Time.t :=
  match ops with
  | [] => None
  | OpHeartbeat k sentAt :: rest =>
      match last_stamp deviceID rest with
      | Some t => Some t
      | None => if decide (deviceID = k) then Some sentAt else None
      end
  | OpUpload _ _ :: rest => last_stamp deviceID rest
  end.

(** The device identifiers a parsed roster registers: the first column of
    every row after the header, when it is not empty. *)
Definition roster_ids (records : list (list string)) : list string :=
  omap (fun row => match row with
                   | deviceID :: _ =>
                       if decide (deviceID = "") then None else Some deviceID
                   | [] => None
                   end) (tail records).

(** A session of six requests: one accepted heartbeat, one accepted upload,
    the rest rejected or read-only. *)
Definition gateway_requests : list Request :=
  [mkRequest "GET" "/api/v1/devices/device-1/stats" None None baseTime;
   mkRequest "POST" "/api/v1/devices/device-1/heartbeat"
     (Some (mkHeartbeatRequest baseTime)) None (Time.Add baseTime (mins 3));
   mkRequest "POST" "/api/v1/devices/device-1/heartbeat"
     (Some (mkHeartbeatRequest Time.zero)) None baseTime;
   mkRequest "POST" "/api/v1/devices/device-1/stats"
     None (Some (mkUploadStatRequest Time.zero 5000000000)) baseTime;
   mkRequest "POST" "/api/v1/devices/device-1/stats"
     None (Some (mkUploadStatRequest Time.zero 0)) baseTime;
   mkRequest "PUT" "/api/v1/devices/device-1/stats" None None baseTime].

(** * Equations of the methods *)

Ltac unfold_M :=
  unfold mbind, M_bind, mret, M_ret, bind, ret, get_devices, put_device,
    exec, eval in *; simpl in *.

Section MethodEquations.
Variables (s : Store) (deviceID : string).

Lemma DeviceExists_eq :
  DeviceExists deviceID s =
  (match devices s !! deviceID with Some _ => true | None => false end, s).
Proof. unfold DeviceExists; unfold_M. by destruct (devices s !! deviceID). Qed.

Lemma RecordHeartbeat_unknown sentAt :
  devices s !! deviceID = None ->
  RecordHeartbeat deviceID sentAt s = (false, s).
Proof. intros H. unfold RecordHeartbeat; unfold_M. by rewrite H. Qed.

Lemma RecordHeartbeat_known sentAt device :
  devices s !! deviceID = Some device ->
  RecordHeartbeat deviceID sentAt s =
  (true, mkStore (<[deviceID := heartbeat_update sentAt device]> (devices s))).
Proof. intros H. unfold RecordHeartbeat; unfold_M. by rewrite H. Qed.

Lemma RecordUploadStat_unknown uploadTime :
  devices s !! deviceID = None ->
  RecordUploadStat deviceID uploadTime s = (false, s).
Proof. intros H. unfold RecordUploadStat; unfold_M. by rewrite H. Qed.

Lemma RecordUploadStat_known uploadTime device :
  devices s !! deviceID = Some device ->
  RecordUploadStat deviceID uploadTime s =
  (true, mkStore (<[deviceID := upload_update uploadTime device]> (devices s))).
Proof. intros H. unfold RecordUploadStat; unfold_M. by rewrite H. Qed.

Lemma GetStats_unknown :
  devices s !! deviceID = None ->
  GetStats deviceID s = ((emptyStatsResult, false), s).
Proof. intros H. unfold GetStats; unfold_M. by rewrite H. Qed.

Lemma GetStats_known device :
  devices s !! deviceID = Some device ->
  GetStats deviceID s = ((stats_of device, true), s).
Proof. intros H. unfold GetStats; unfold_M. by rewrite H. Qed.
End MethodEquations.

Lemma step_lookup (op : Op) (s : Store) (k : string) :
  devices (exec (step op) s) !! k =
  if decide (k = fst (op_update op))
  then snd (op_update op) <$> devices s !! k
  else devices s !! k.
Proof.
  unfold exec. destruct op as [id t | id u]; cbn [step op_update fst snd].
  - destruct (devices s !! id) as [d|] eqn:E.
    + rewrite (RecordHeartbeat_known _ _ _ _ E); simpl.
      case_decide; subst.
      * by rewrite lookup_insert_eq, E.
      * by rewrite lookup_insert_ne.
    + rewrite (RecordHeartbeat_unknown _ _ _ E); simpl.
      case_decide; subst; [by rewrite E | done].
  - destruct (devices s !! id) as [d|] eqn:E.
    + rewrite (RecordUploadStat_known _ _ _ _ E); simpl.
      case_decide; subst.
      * by rewrite lookup_insert_eq, E.
      * by rewrite lookup_insert_ne.
    + rewrite (RecordUploadStat_unknown _ _ _ E); simpl.
      case_decide; subst; [by rewrite E | done].
Qed.

(** The key set never changes under calls. *)
Lemma step_dom (op : Op) (s : Store) :
  dom (devices (exec (step op) s)) = dom (devices s).
Proof.
  apply set_eq. intros k. rewrite !elem_of_dom, step_lookup.
  case_decide; [|done]. by rewrite fmap_is_Some.
Qed.

Lemma run_dom (ops : list Op) (s : Store) :
  dom (devices (run ops s)) = dom (devices s).
Proof.
  revert s. induction ops as [|op ops IH]; intros s; simpl; [done|].
  by rewrite IH, step_dom.
Qed.

Lemma run_app (ops1 ops2 : list Op) (s : Store) :
  run (ops1 ++ ops2) s = run ops2 (run ops1 s).
Proof. revert s. induction ops1; intros s; simpl; auto. Qed.

Lemma load_rows_cons (row : list string) (rows : list (list string)) (s : Store) :
  exec (load_rows (row :: rows)) s = exec (load_rows rows) (exec (load_row row) s).
Proof. unfold exec; simpl. unfold mbind, M_bind, bind. by destruct (load_row row s). Qed.

Lemma load_rows_fresh (rows : list (list string)) (s : Store) :
  fresh s -> fresh (exec (load_rows rows) s).
Proof.
  revert s. induction rows as [|row rows IH]; intros s Hs; [exact Hs|].
  rewrite load_rows_cons. apply IH. destruct row as [|id rest]; [exact Hs|].
  unfold load_row. case_decide; [exact Hs|].
  intros k d. unfold_M. destruct (decide (k = id)) as [->|Hne].
  - rewrite lookup_insert_eq. congruence.
  - rewrite lookup_insert_ne by done. apply Hs.
Qed.

Lemma initial_fresh (records : list (list string)) : fresh (initial records).
Proof.
  apply load_rows_fresh. intros k d. unfold NewStore; simpl.
  by rewrite lookup_empty.
Qed.

Lemma initial_known (records : list (list string)) (k : string) (d : DeviceStats) :
  devices (initial records) !! k = Some d -> d = newDeviceStats k.
Proof. apply initial_fresh. Qed.

(** * Unknown devices *)

(** C5: for a device identifier that is not in the store, [DeviceExists],
    [RecordHeartbeat] and [RecordUploadStat] return false, [GetStats]
    returns found=false, and each of these calls hands back the store it was
    given, unchanged. *)
Theorem unknown_device_not_found_no_mutation
    (s : Store) (deviceID : string) (sentAt : Time.t) (uploadTime : Z) :
  devices s !! deviceID = None ->
  DeviceExists deviceID s = (false, s) /\
  RecordHeartbeat deviceID sentAt s = (false, s) /\
  RecordUploadStat deviceID uploadTime s = (false, s) /\
  snd (fst (GetStats deviceID s)) = false /\
  snd (GetStats deviceID s) = s.
Proof.
  intros H. rewrite DeviceExists_eq, H.
  rewrite (RecordHeartbeat_unknown _ _ _ H), (RecordUploadStat_unknown _ _ _ H),
    (GetStats_unknown _ _ H).
  repeat split.
Qed.

Lemma unknown_device_witness :
  devices (initial test_rows) !! "unknown" = None /\
  RecordHeartbeat "unknown" baseTime (initial test_rows)
  = (false, initial test_rows).
Proof.
  split; [reflexivity|].
  apply (unknown_device_not_found_no_mutation
           (initial test_rows) "unknown" baseTime 0).
  reflexivity.
Defined.

(** * Devices without data *)

(** C6: a known device whose record has no heartbeats and no uploads is
    reported as found, with both [HasHeartbeats] and [HasUploads] false. *)
Theorem no_data_found_with_both_flags_false
    (s : Store) (deviceID : string) (device : DeviceStats) :
  devices s !! deviceID = Some device ->
  HeartbeatCount device = 0 ->
  UploadCount device = 0 ->
  exists result,
    GetStats deviceID s = ((result, true), s) /\
    HasHeartbeats result = false /\ HasUploads result = false.
Proof.
  intros H Hh Hu. exists (stats_of device).
  rewrite (GetStats_known _ _ _ H). unfold stats_of. rewrite Hh, Hu.
  repeat split.
Qed.

Lemma no_data_witness :
  exists result,
    GetStats "device-1" (initial test_rows) = ((result, true), initial test_rows) /\
    HasHeartbeats result = false /\ HasUploads result = false.
Proof.
  apply (no_data_found_with_both_flags_false
           (initial test_rows) "device-1" (newDeviceStats "device-1"));
    reflexivity.
Defined.

(** * Frame properties of the two mutators *)

(** C10: on a known device, [RecordHeartbeat] leaves the record's [ID] and
    upload fields as they were and [RecordUploadStat] leaves its [ID] and
    heartbeat fields as they were; both keep the key set and every other
    device's record. *)
Theorem mutators_frame
    (s : Store) (deviceID : string) (device : DeviceStats)
    (sentAt : Time.t) (uploadTime : Z) :
  devices s !! deviceID = Some device ->
  (let s' := exec (RecordHeartbeat deviceID sentAt) s in
   dom (devices s') = dom (devices s) /\
   (forall other, other <> deviceID -> devices s' !! other = devices s !! other) /\
   exists device',
     devices s' !! deviceID = Some device' /\
     ID device' = ID device /\
     UploadCount device' = UploadCount device /\
     UploadTimeSum device' = UploadTimeSum device) /\
  (let s' := exec (RecordUploadStat deviceID uploadTime) s in
   dom (devices s') = dom (devices s) /\
   (forall other, other <> deviceID -> devices s' !! other = devices s !! other) /\
   exists device',
     devices s' !! deviceID = Some device' /\
     ID device' = ID device /\
     HeartbeatCount device' = HeartbeatCount device /\
     FirstHeartbeat device' = FirstHeartbeat device /\
     LastHeartbeat device' = LastHeartbeat device).
Proof.
  intros H. split; cbv zeta.
  - split; [exact (step_dom (OpHeartbeat deviceID sentAt) s)|]. split.
    + intros other Hne.
      rewrite (step_lookup (OpHeartbeat deviceID sentAt)). simpl.
      by rewrite decide_False.
    + exists (heartbeat_update sentAt device).
      rewrite (step_lookup (OpHeartbeat deviceID sentAt)). simpl.
      rewrite decide_True by done. rewrite H. repeat split.
  - split; [exact (step_dom (OpUpload deviceID uploadTime) s)|]. split.
    + intros other Hne.
      rewrite (step_lookup (OpUpload deviceID uploadTime)). simpl.
      by rewrite decide_False.
    + exists (upload_update uploadTime device).
      rewrite (step_lookup (OpUpload deviceID uploadTime)). simpl.
      rewrite decide_True by done. rewrite H. repeat split.
Qed.

Lemma mutators_frame_witness :
  dom (devices (exec (RecordHeartbeat "device-1" baseTime) (initial test_rows)))
  = dom (devices (initial test_rows)).
Proof.
  apply (mutators_frame (initial test_rows) "device-1"
           (newDeviceStats "device-1") baseTime (secs 5)).
  reflexivity.
Defined.

(** * Integer facts *)

Lemma wrap_in_range (z : Z) : Int64.in_range (Int64.wrap z).
Proof.
  unfold Int64.in_range, Int64.wrap, Int64.min_int, Int64.max_int.
  pose proof (Z.mod_pos_bound (z + 2 ^ 63) (2 ^ 64) ltac:(lia)). lia.
Qed.

Lemma wrap_id (z : Z) : Int64.in_range z -> Int64.wrap z = z.
Proof.
  unfold Int64.in_range, Int64.wrap, Int64.min_int, Int64.max_int. intros H.
  rewrite Z.mod_small; lia.
Qed.

Lemma quot_in_range (a b : Z) :
  Int64.in_range a -> 0 < b -> Int64.in_range (Z.quot a b).
Proof.
  unfold Int64.in_range, Int64.min_int, Int64.max_int. intros Ha Hb.
  destruct (Z.le_gt_cases 0 a) as [Hp|Hn].
  - pose proof (Z.quot_pos a b Hp Hb).
    assert (Z.quot a b <= a) by (apply Z.quot_le_upper_bound; nia). lia.
  - assert (E : Z.quot a b = - Z.quot (- a) b)
      by (rewrite Z.quot_opp_l by lia; lia).
    pose proof (Z.quot_pos (- a) b ltac:(lia) Hb).
    assert (Z.quot (- a) b <= - a) by (apply Z.quot_le_upper_bound; nia). lia.
Qed.

(** * Single heartbeat *)

Lemma f100_exact : (Float64.to_Q f100 == 100)%Q.
Proof. reflexivity. Qed.

(** C3: a known device whose record holds exactly one heartbeat is reported
    with an uptime of exactly 100.0 (the binary64 7036874417766400 * 2^-46,
    whose value is the number 100), whatever timestamps the record holds. *)
Theorem single_heartbeat_uptime_100
    (s : Store) (deviceID : string) (device : DeviceStats) :
  devices s !! deviceID = Some device ->
  HeartbeatCount device = 1 ->
  exists result,
    GetStats deviceID s = ((result, true), s) /\
    HasHeartbeats result = true /\
    Uptime result = S754_finite false 7036874417766400 (-46) /\
    (Float64.to_Q (Uptime result) == 100)%Q.
Proof.
  intros H Hc. exists (stats_of device). rewrite (GetStats_known _ _ _ H).
  unfold stats_of. rewrite Hc. simpl.
  destruct (0 <? UploadCount device); repeat split.
Qed.

(** One heartbeat on a freshly registered device, at any instant [T]. *)
Lemma one_heartbeat_scenario
    (records : list (list string)) (deviceID : string) (device0 : DeviceStats)
    (T : Time.t) :
  devices (initial records) !! deviceID = Some device0 ->
  Uptime (fst (eval (GetStats deviceID)
                 (run [OpHeartbeat deviceID T] (initial records)))) = f100.
Proof.
  intros H. pose proof (initial_known _ _ _ H) as ->.
  assert (E : devices (run [OpHeartbeat deviceID T] (initial records)) !! deviceID
              = Some (heartbeat_update T (newDeviceStats deviceID))).
  { cbn [run]. rewrite step_lookup. simpl.
    rewrite decide_True by done. by rewrite H. }
  unfold eval. by rewrite (GetStats_known _ _ _ E).
Qed.

Lemma single_heartbeat_witness :
  exists result,
    GetStats "device-1" (run [OpHeartbeat "device-1" baseTime] (initial test_rows))
    = ((result, true), run [OpHeartbeat "device-1" baseTime] (initial test_rows)) /\
    HasHeartbeats result = true /\
    Uptime result = S754_finite false 7036874417766400 (-46) /\
    (Float64.to_Q (Uptime result) == 100)%Q.
Proof.
  apply (single_heartbeat_uptime_100
           (run [OpHeartbeat "device-1" baseTime] (initial test_rows))
           "device-1"
           (heartbeat_update baseTime (newDeviceStats "device-1")));
    reflexivity.
Defined.

(** * Average upload time *)

(** C4: for a known device with at least one upload, the reported average is
    the accumulated duration divided by the upload count, truncated toward
    zero; uploads of 5s, 10s and 15s average to exactly 10s. *)
Theorem avg_upload_is_truncated_quotient
    (s : Store) (deviceID : string) (device : DeviceStats) :
  devices s !! deviceID = Some device ->
  0 < UploadCount device ->
  Int64.in_range (UploadTimeSum device) ->
  (exists result,
     GetStats deviceID s = ((result, true), s) /\
     HasUploads result = true /\
     AvgUploadTime result = Z.quot (UploadTimeSum device) (UploadCount device)) /\
  AvgUploadTime (fst (eval (GetStats "device-1") scen_uploads)) = secs 10.
Proof.
  intros H Hc Hr. split; [|reflexivity].
  exists (stats_of device). rewrite (GetStats_known _ _ _ H).
  unfold stats_of. apply Z.ltb_lt in Hc as Hc'. rewrite Hc'.
  repeat split. simpl. unfold Int64.quo.
  apply wrap_id, quot_in_range; assumption.
Qed.

Lemma avg_upload_witness :
  exists result,
    GetStats "device-1" scen_uploads = ((result, true), scen_uploads) /\
    HasUploads result = true /\
    AvgUploadTime result = Z.quot (secs 30) 3.
Proof.
  apply (avg_upload_is_truncated_quotient scen_uploads "device-1"
           (mkDeviceStats "device-1" 0 Time.zero Time.zero 3 (secs 30))).
  - reflexivity.
  - reflexivity.
  - unfold Int64.in_range, Int64.min_int, Int64.max_int, secs, Duration.Second.
    simpl. lia.
Defined.

(** * Histories *)

Lemma run_lookup (deviceID : string) (ops : list Op) (s : Store) :
  devices (run ops s) !! deviceID = replay deviceID ops <$> devices s !! deviceID.
Proof.
  revert s. induction ops as [|op ops IH]; intros s; cbn [run replay].
  - by destruct (devices s !! deviceID).
  - rewrite IH, step_lookup.
    case_decide; destruct (devices s !! deviceID); reflexivity.
Qed.

Lemma reachable_record
    (records : list (list string)) (ops : list Op) (deviceID : string)
    (device : DeviceStats) :
  devices (run ops (initial records)) !! deviceID = Some device ->
  devices (initial records) !! deviceID = Some (newDeviceStats deviceID) /\
  device = replay deviceID ops (newDeviceStats deviceID).
Proof.
  rewrite run_lookup.
  destruct (devices (initial records) !! deviceID) as [d0|] eqn:E; [|done].
  pose proof (initial_known _ _ _ E) as ->. simpl. intros [= <-]. done.
Qed.

Lemma wrap_wrap_add (a b : Z) : Int64.wrap (Int64.wrap a + b) = Int64.wrap (a + b).
Proof.
  unfold Int64.wrap.
  replace (((a + 2 ^ 63) mod 2 ^ 64 - 2 ^ 63) + b + 2 ^ 63)
    with ((a + 2 ^ 63) mod 2 ^ 64 + b) by lia.
  rewrite Zplus_mod_idemp_l. f_equal. f_equal. lia.
Qed.

Section Replay.
Variable deviceID : string.

Lemma replay_ID ops d : ID (replay deviceID ops d) = ID d.
Proof.
  revert d. induction ops as [|op ops IH]; intros d; cbn [replay]; [done|].
  rewrite IH. case_decide; [|done]. by destruct op.
Qed.

Lemma replay_heartbeat_count ops d :
  Int64.in_range (HeartbeatCount d) ->
  HeartbeatCount (replay deviceID ops d)
  = Int64.wrap (HeartbeatCount d + Z.of_nat (heartbeats_recorded deviceID ops)).
Proof.
  revert d. induction ops as [|op ops IH]; intros d Hr; cbn [replay].
  - simpl. rewrite Z.add_0_r. symmetry. by apply wrap_id.
  - destruct op as [k t|k u]; cbn [op_update fst snd heartbeats_recorded].
    + case_decide.
      * rewrite IH by apply wrap_in_range. simpl HeartbeatCount.
        unfold Int64.add. rewrite wrap_wrap_add. f_equal. lia.
      * rewrite IH by done. f_equal.
    + case_decide; rewrite IH by done; reflexivity.
Qed.

Lemma replay_upload_count ops d :
  Int64.in_range (UploadCount d) ->
  UploadCount (replay deviceID ops d)
  = Int64.wrap (UploadCount d + Z.of_nat (uploads_recorded deviceID ops)).
Proof.
  revert d. induction ops as [|op ops IH]; intros d Hr; cbn [replay].
  - simpl. rewrite Z.add_0_r. symmetry. by apply wrap_id.
  - destruct op as [k t|k u]; cbn [op_update fst snd uploads_recorded].
    + case_decide; rewrite IH by done; reflexivity.
    + case_decide.
      * rewrite IH by apply wrap_in_range. simpl UploadCount.
        unfold Int64.add. rewrite wrap_wrap_add. f_equal. lia.
      * rewrite IH by done. f_equal.
Qed.

Lemma replay_upload_sum ops d :
  Int64.in_range (UploadTimeSum d) ->
  UploadTimeSum (replay deviceID ops d)
  = Int64.wrap (UploadTimeSum d + upload_total deviceID ops).
Proof.
  revert d. induction ops as [|op ops IH]; intros d Hr; cbn [replay].
  - simpl. rewrite Z.add_0_r. symmetry. by apply wrap_id.
  - destruct op as [k t|k u]; cbn [op_update fst snd upload_total].
    + case_decide; rewrite IH by done; reflexivity.
    + case_decide.
      * rewrite IH by apply wrap_in_range. simpl UploadTimeSum.
        unfold Int64.add. rewrite wrap_wrap_add. f_equal. lia.
      * rewrite IH by done. f_equal.
Qed.

(** Once a non-zero first heartbeat is stored it stays. *)
Lemma replay_first_kept ops d :
  Time.IsZero (FirstHeartbeat d) = false ->
  FirstHeartbeat (replay deviceID ops d) = FirstHeartbeat d.
Proof.
  revert d. induction ops as [|op ops IH]; intros d Hz; cbn [replay]; [done|].
  case_decide; [|by apply IH].
  destruct op as [k t|k u]; cbn [op_update fst snd].
  - rewrite IH; unfold heartbeat_update; simpl; by rewrite Hz.
  - by rewrite IH.
Qed.

(** With non-zero timestamps, the stored first heartbeat is the zero instant
    exactly as long as no heartbeat has been recorded. *)
Lemma replay_first_zero_iff ops d :
  stamps_nonzero ops = true ->
  Time.IsZero (FirstHeartbeat d) = true ->
  Time.IsZero (FirstHeartbeat (replay deviceID ops d)) = true <->
  heartbeats_recorded deviceID ops = 0%nat.
Proof.
  revert d. induction ops as [|op ops IH]; intros d Hs Hz; cbn [replay].
  - simpl. tauto.
  - simpl in Hs. apply andb_true_iff in Hs as [Hop Hs].
    destruct op as [k t|k u]; cbn [op_update fst snd heartbeats_recorded].
    + case_decide.
      * rewrite replay_first_kept; unfold heartbeat_update; simpl; rewrite Hz;
          apply negb_true_iff in Hop; rewrite ?Hop; [|done].
        split; [done|lia].
      * simpl. by apply IH.
    + case_decide; by apply IH.
Qed.
End Replay.

(** * The heartbeat contract *)

Lemma reachable_count_in_range
    (records : list (list string)) (ops : list Op) (deviceID : string)
    (device : DeviceStats) :
  devices (run ops (initial records)) !! deviceID = Some device ->
  Int64.in_range (HeartbeatCount device).
Proof.
  intros H. apply reachable_record in H as [_ ->].
  rewrite replay_heartbeat_count; [apply wrap_in_range|].
  unfold Int64.in_range, Int64.min_int, Int64.max_int; simpl; lia.
Qed.

Lemma int64_max_overflows :
  HeartbeatCount
    (heartbeat_update baseTime
       (mkDeviceStats "device-1" Int64.max_int baseTime baseTime 0 0))
  = Int64.min_int.
Proof. reflexivity. Qed.

(** C1 (as worded): refuted by a heartbeat that carries the zero instant;
    the next heartbeat finds [FirstHeartbeat.IsZero()] still true and
    overwrites the first-heartbeat field although a heartbeat was recorded. *)
Lemma heartbeat_contract_counterexample : ~ heartbeat_contract_as_stated.
Proof.
  intros H.
  destruct (H test_rows [OpHeartbeat "device-1" Time.zero] "device-1"
              (heartbeat_update Time.zero (newDeviceStats "device-1"))
              baseTime eq_refl)
    as (_ & d' & Hl & _ & _ & Hkeep & _).
  vm_compute in Hl. injection Hl as <-.
  specialize (Hkeep ltac:(discriminate)). discriminate Hkeep.
Qed.

(** C1 (amended): on a store reached from a loaded roster by calls whose
    heartbeat timestamps are not the zero instant, a heartbeat for a known
    device whose count is below the [int64] maximum returns true, adds
    exactly one to the count, stores [sentAt] as first heartbeat exactly when
    no heartbeat was recorded before and otherwise keeps the stored one, and
    always stores [sentAt] as last heartbeat.  Two heartbeats [T1], [T2] on a
    fresh device, [T1] not the zero instant, leave first = [T1] and
    last = [T2], whatever their order in time. *)
Theorem heartbeat_contract
    (records : list (list string)) (ops : list Op) (deviceID : string)
    (device : DeviceStats) (sentAt T1 T2 : Time.t) :
  let s := run ops (initial records) in
  stamps_nonzero ops = true ->
  devices s !! deviceID = Some device ->
  HeartbeatCount device < Int64.max_int ->
  Time.IsZero T1 = false ->
  (eval (RecordHeartbeat deviceID sentAt) s = true /\
   exists device',
     devices (exec (RecordHeartbeat deviceID sentAt) s) !! deviceID = Some device' /\
     HeartbeatCount device' = HeartbeatCount device + 1 /\
     (heartbeats_recorded deviceID ops = 0%nat -> FirstHeartbeat device' = sentAt) /\
     (heartbeats_recorded deviceID ops <> 0%nat ->
      FirstHeartbeat device' = FirstHeartbeat device) /\
     LastHeartbeat device' = sentAt) /\
  (exists device2,
     devices (run [OpHeartbeat deviceID T1; OpHeartbeat deviceID T2]
                (initial records)) !! deviceID = Some device2 /\
     HeartbeatCount device2 = 2 /\
     FirstHeartbeat device2 = T1 /\ LastHeartbeat device2 = T2).
Proof.
  intros s Hs H Hmax HT1.
  pose proof (reachable_count_in_range _ _ _ _ H) as Hr.
  pose proof (reachable_record _ _ _ _ H) as [H0 Hd].
  split; [split|].
  - unfold eval. by rewrite (RecordHeartbeat_known _ _ _ _ H).
  - exists (heartbeat_update sentAt device). split; [|split; [|split; [|split]]].
    + unfold exec. rewrite (RecordHeartbeat_known _ _ _ _ H). simpl.
      by rewrite lookup_insert_eq.
    + simpl. unfold Int64.add. apply wrap_id.
      unfold Int64.in_range, Int64.min_int, Int64.max_int in *. lia.
    + intros Hn. simpl.
      assert (Hz : Time.IsZero (FirstHeartbeat device) = true).
      { rewrite Hd. by apply replay_first_zero_iff. }
      by rewrite Hz.
    + intros Hn. simpl.
      destruct (Time.IsZero (FirstHeartbeat device)) eqn:Hz; [|done].
      exfalso. apply Hn. rewrite Hd in Hz.
      by apply (replay_first_zero_iff deviceID ops (newDeviceStats deviceID)).
    + reflexivity.
  - eexists. split.
    + rewrite run_lookup, H0. reflexivity.
    + cbn [replay op_update fst snd]. rewrite !decide_True by done.
      unfold heartbeat_update; simpl. rewrite HT1. repeat split.
Qed.

Lemma heartbeat_contract_witness :
  exists device2,
    devices (run [OpHeartbeat "device-1" (Time.Add baseTime (mins 5));
                  OpHeartbeat "device-1" baseTime]
               (initial test_rows)) !! "device-1" = Some device2 /\
    HeartbeatCount device2 = 2 /\
    FirstHeartbeat device2 = Time.Add baseTime (mins 5) /\
    LastHeartbeat device2 = baseTime.
Proof.
  apply (heartbeat_contract test_rows [OpHeartbeat "device-1" baseTime]
           "device-1" (heartbeat_update baseTime (newDeviceStats "device-1"))
           baseTime (Time.Add baseTime (mins 5)) baseTime).
  - reflexivity.
  - reflexivity.
  - vm_compute. reflexivity.
  - reflexivity.
Defined.

(** * The upload invariant *)

Lemma upload_total_zero (deviceID : string) (ops : list Op) :
  uploads_recorded deviceID ops = 0%nat -> upload_total deviceID ops = 0.
Proof.
  induction ops as [|[k t|k u] ops IH]; simpl; [done|done|].
  case_decide; [lia|]. simpl. intros Hn. rewrite IH by done. lia.
Qed.

Lemma upload_total_bounds (deviceID : string) (ops : list Op) :
  durations_positive ops = true ->
  Z.of_nat (uploads_recorded deviceID ops) <= upload_total deviceID ops.
Proof.
  induction ops as [|[k t|k u] ops IH]; simpl; [lia|done|].
  intros [Hu Hs]%andb_true_iff. apply Z.ltb_lt in Hu.
  specialize (IH Hs). case_decide; lia.
Qed.

(** C8 (as worded): refuted by an upload of duration zero, which the store
    accepts: the count becomes 1 while the sum stays 0. *)
Lemma upload_invariant_counterexample : ~ upload_invariant_as_stated.
Proof.
  intros H.
  destruct (H test_rows [OpUpload "device-1" 0] "device-1"
              (upload_update 0 (newDeviceStats "device-1")) eq_refl)
    as [_ Hback].
  specialize (Hback eq_refl). discriminate Hback.
Qed.

(** C8 (amended): on a store reached from a loaded roster, a device with
    fewer than 2^63 recorded uploads has [UploadTimeSum = 0] whenever
    [UploadCount = 0]; conversely, when every recorded upload time is
    positive and the durations recorded for the device total less than 2^63
    nanoseconds, [UploadTimeSum = 0] implies [UploadCount = 0]. *)
Theorem upload_invariant
    (records : list (list string)) (ops : list Op) (deviceID : string)
    (device : DeviceStats) :
  devices (run ops (initial records)) !! deviceID = Some device ->
  Z.of_nat (uploads_recorded deviceID ops) < 2 ^ 63 ->
  (UploadCount device = 0 -> UploadTimeSum device = 0) /\
  (durations_positive ops = true ->
   upload_total deviceID ops < 2 ^ 63 ->
   UploadTimeSum device = 0 -> UploadCount device = 0).
Proof.
  intros H Hn. apply reachable_record in H as [_ ->].
  assert (Hr0 : Int64.in_range 0)
    by (unfold Int64.in_range, Int64.min_int, Int64.max_int; lia).
  rewrite replay_upload_count, replay_upload_sum by exact Hr0.
  cbn [newDeviceStats UploadCount UploadTimeSum]. rewrite !Z.add_0_l.
  assert (Hc : Int64.wrap (Z.of_nat (uploads_recorded deviceID ops))
               = Z.of_nat (uploads_recorded deviceID ops)).
  { apply wrap_id. unfold Int64.in_range, Int64.min_int, Int64.max_int. lia. }
  rewrite Hc. split.
  - intros Hz. rewrite upload_total_zero by lia. reflexivity.
  - intros Hp Ht. pose proof (upload_total_bounds deviceID ops Hp).
    rewrite wrap_id
      by (unfold Int64.in_range, Int64.min_int, Int64.max_int; lia).
    lia.
Qed.

Lemma upload_invariant_witness :
  (UploadCount (upload_update (secs 5) (newDeviceStats "device-1")) = 0 ->
   UploadTimeSum (upload_update (secs 5) (newDeviceStats "device-1")) = 0) /\
  (durations_positive [OpUpload "device-1" (secs 5)] = true ->
   upload_total "device-1" [OpUpload "device-1" (secs 5)] < 2 ^ 63 ->
   UploadTimeSum (upload_update (secs 5) (newDeviceStats "device-1")) = 0 ->
   UploadCount (upload_update (secs 5) (newDeviceStats "device-1")) = 0).
Proof.
  apply (upload_invariant test_rows [OpUpload "device-1" (secs 5)] "device-1").
  - reflexivity.
  - simpl. lia.
Defined.

(** * Facts about binary64 rounding *)

Section Rounding.
Import Float64.

Lemma digits2_pos_bounds (p : positive) :
  2 ^ (Z.pos (digits2_pos p) - 1) <= Z.pos p < 2 ^ Z.pos (digits2_pos p).
Proof.
  induction p as [p IH|p IH|]; cbn [digits2_pos]; [| |simpl; lia];
    rewrite Pos2Z.inj_succ;
    replace (Z.succ (Z.pos (digits2_pos p)) - 1)
      with (Z.succ (Z.pos (digits2_pos p) - 1)) by lia;
    rewrite !Z.pow_succ_r by lia; lia.
Qed.

Lemma digits2_pos_le (p : positive) (k : Z) :
  Z.pos p <= 2 ^ k -> 0 <= k -> Z.pos (digits2_pos p) <= k + 1.
Proof.
  intros Hp Hk. pose proof (digits2_pos_bounds p) as [Hlo _].
  destruct (Z.le_gt_cases (Z.pos (digits2_pos p)) (k + 1)) as [|Hgt]; [done|].
  assert (2 ^ (k + 1) <= 2 ^ (Z.pos (digits2_pos p) - 1))
    by (apply Z.pow_le_mono_r; lia).
  rewrite Z.pow_add_r in H by lia. lia.
Qed.

Lemma digits2_pos_iter_xO (p k : positive) :
  digits2_pos (Pos.iter xO p k) = (digits2_pos p + k)%positive.
Proof.
  induction k as [|k IH] using Pos.peano_ind.
  - simpl. lia.
  - rewrite Pos.iter_succ. cbn [digits2_pos]. rewrite IH. lia.
Qed.

Lemma shr_1_m (mrs : shr_record) :
  0 <= shr_m mrs -> shr_m (shr_1 mrs) = shr_m mrs / 2.
Proof.
  destruct mrs as [m r s]. simpl. intros Hm.
  destruct m as [|[p|p|]|p]; simpl; try reflexivity; try lia.
  - rewrite Pos2Z.inj_xI. apply Z.div_unique with 1; lia.
  - rewrite Pos2Z.inj_xO. apply Z.div_unique with 0; lia.
Qed.

Lemma shr_m_iter (p : positive) (mrs : shr_record) :
  0 <= shr_m mrs ->
  shr_m (SpecFloat.iter_pos shr_1 p mrs) = shr_m mrs / 2 ^ Z.pos p.
Proof.
  assert (Hdiv : forall a k, 0 <= a -> 0 <= k -> 0 <= a / 2 ^ k)
    by (intros; apply Z.div_pos; [done|apply Z.pow_pos_nonneg; lia]).
  revert mrs. induction p as [p IH|p IH|]; intros mrs Hm; cbn [SpecFloat.iter_pos].
  - assert (H1 : 0 <= shr_m (shr_1 mrs))
      by (rewrite shr_1_m by done; apply Z.div_pos; lia).
    assert (H2 : 0 <= shr_m (SpecFloat.iter_pos shr_1 p (shr_1 mrs)))
      by (rewrite IH by done; apply Hdiv; lia).
    rewrite IH, IH, shr_1_m by done.
    rewrite !Z.div_div by (try apply Z.pow_pos_nonneg; lia).
    f_equal. rewrite Pos2Z.inj_xI.
    replace (2 * Z.pos p + 1) with (1 + Z.pos p + Z.pos p) by lia.
    rewrite !Z.pow_add_r by lia. lia.
  - assert (H2 : 0 <= shr_m (SpecFloat.iter_pos shr_1 p mrs))
      by (rewrite IH by done; apply Hdiv; lia).
    rewrite IH, IH by done.
    rewrite !Z.div_div by (try apply Z.pow_pos_nonneg; lia).
    f_equal. rewrite <- Z.pow_add_r by lia. f_equal. lia.
  - rewrite shr_1_m by done. reflexivity.
Qed.

Lemma shr_spec (mrs : shr_record) (e n : Z) :
  0 <= shr_m mrs ->
  shr_m (fst (shr mrs e n)) = shr_m mrs / 2 ^ Z.max 0 n /\
  snd (shr mrs e n) = e + Z.max 0 n.
Proof.
  intros Hm. destruct n as [|p|p]; simpl.
  - rewrite Z.div_1_r. lia.
  - rewrite shr_m_iter by done. split; reflexivity.
  - rewrite Z.div_1_r. lia.
Qed.

Lemma shr_m_of_loc (m : Z) (l : location) :
  shr_m (shr_record_of_loc m l) = m.
Proof. destruct l as [|[]]; reflexivity. Qed.

Lemma shr_fexp_nonneg (m e : Z) (l : location) :
  0 <= m -> 0 <= shr_m (fst (shr_fexp prec emax m e l)).
Proof.
  intros Hm. unfold shr_fexp.
  destruct (shr_spec (shr_record_of_loc m l) e
              (fexp prec emax (Zdigits2 m + e) - e)) as [-> _];
    rewrite shr_m_of_loc; [lia|].
  apply Z.div_pos; [done|apply Z.pow_pos_nonneg; lia].
Qed.

Lemma round_nearest_even_bounds (m : Z) (l : location) :
  m <= round_nearest_even m l <= m + 1.
Proof.
  destruct l as [|[]]; simpl; try lia. destruct (Z.even m); lia.
Qed.

(** Rounding a non-negative mantissa never produces a NaN and keeps the
    sign it is given. *)
Lemma binary_round_aux_sign (sx : bool) (mx ex : Z) (lx : location) :
  0 <= mx -> sign_is sx (binary_round_aux prec emax sx mx ex lx) = true.
Proof.
  intros Hm. unfold binary_round_aux.
  pose proof (shr_fexp_nonneg mx ex lx Hm) as H1.
  destruct (shr_fexp prec emax mx ex lx) as [mrs' e'] eqn:E1. simpl in H1.
  pose proof (round_nearest_even_bounds (shr_m mrs') (loc_of_shr_record mrs')) as H2.
  pose proof (shr_fexp_nonneg (round_nearest_even (shr_m mrs') (loc_of_shr_record mrs'))
                e' loc_Exact ltac:(lia)) as H3.
  destruct (shr_fexp prec emax _ e' loc_Exact) as [mrs'' e''] eqn:E2. simpl in H3.
  destruct (shr_m mrs'') as [|p|p]; [| |lia].
  - simpl. by destruct sx.
  - destruct (e'' <=? emax - prec); simpl; by destruct sx.
Qed.

(** On a positive mantissa whose exponent is in the normal range, the shift
    to the canonical exponent keeps the mantissa positive. *)
Lemma shr_fexp_pos (m : positive) (e : Z) (l : location) :
  -1021 <= e ->
  0 < shr_m (fst (shr_fexp prec emax (Z.pos m) e l)) <= Z.pos m /\
  e <= snd (shr_fexp prec emax (Z.pos m) e l)
    <= e + Z.max 0 (Z.pos (digits2_pos m) - 53).
Proof.
  intros He. unfold shr_fexp. cbn [Zdigits2].
  set (n := fexp prec emax (Z.pos (digits2_pos m) + e) - e).
  assert (Hn : n = Z.pos (digits2_pos m) - 53)
    by (unfold n, fexp, emin, prec, emax; lia).
  destruct (shr_spec (shr_record_of_loc (Z.pos m) l) e n) as [-> ->];
    rewrite shr_m_of_loc; [lia|].
  rewrite Hn. pose proof (digits2_pos_bounds m) as [Hlo Hhi].
  set (k := Z.max 0 (Z.pos (digits2_pos m) - 53)) in *.
  assert (H2k : 0 < 2 ^ k) by (apply Z.pow_pos_nonneg; lia).
  assert (Hle : 2 ^ k <= Z.pos m).
  { etrans; [|exact Hlo]. apply Z.pow_le_mono_r; lia. }
  repeat split; try lia.
  - apply Z.div_str_pos. lia.
  - apply Z.div_le_upper_bound; nia.
Qed.

Lemma binary_round_aux_finite (sx : bool) (m : positive) (e : Z) (l : location) :
  -1021 <= e ->
  e + 2 * Z.max 0 (Z.pos (digits2_pos m) - 53) + 1 <= 971 ->
  exists m' e', binary_round_aux prec emax sx (Z.pos m) e l = S754_finite sx m' e'.
Proof.
  intros He Hb. unfold binary_round_aux.
  pose proof (shr_fexp_pos m e l He) as [[H1 H1'] [H1e H1e']].
  destruct (shr_fexp prec emax (Z.pos m) e l) as [mrs' e'] eqn:E1.
  simpl in H1, H1', H1e, H1e'.
  pose proof (round_nearest_even_bounds (shr_m mrs') (loc_of_shr_record mrs')) as H2.
  set (m2 := round_nearest_even (shr_m mrs') (loc_of_shr_record mrs')) in *.
  destruct m2 as [|p2|p2] eqn:Em2; [lia| |lia].
  pose proof (shr_fexp_pos p2 e' loc_Exact ltac:(lia)) as [[H3 _] [_ H3e]].
  destruct (shr_fexp prec emax (Z.pos p2) e' loc_Exact) as [mrs'' e''] eqn:E2.
  simpl in H3, H3e.
  assert (Hd : Z.pos (digits2_pos p2) <= Z.pos (digits2_pos m) + 1).
  { apply (digits2_pos_le p2); [|lia].
    pose proof (digits2_pos_bounds m) as [_ Hhi]. lia. }
  destruct (shr_m mrs'') as [|p3|p3]; [lia| |lia].
  assert (Hle : (e'' <=? emax - prec) = true)
    by (apply Z.leb_le; unfold emax, prec; lia).
  rewrite Hle. eauto.
Qed.

Lemma of_int_pos_finite (p : positive) :
  Z.pos p <= 2 ^ 63 ->
  (exists m e, of_int (Z.pos p) = S754_finite false m e) /\
  (exists m e, of_int (Z.neg p) = S754_finite true m e).
Proof.
  intros Hp. unfold of_int, binary_normalize, binary_round.
  assert (Hd : Z.pos (digits2_pos p) <= 64)
    by (apply (digits2_pos_le p 63); lia).
  unfold shl_align.
  assert (Hf : fexp prec emax (Z.pos (digits2_pos p) + 0) - 0
               = Z.pos (digits2_pos p) - 53)
    by (unfold fexp, emin, prec, emax; lia).
  rewrite Hf.
  destruct (Z.pos (digits2_pos p) - 53) as [|k|k] eqn:Ek.
  - split; apply binary_round_aux_finite; lia.
  - split; apply binary_round_aux_finite; lia.
  - assert (Hf' : fexp prec emax (Z.pos (digits2_pos p) + 0) = Z.neg k)
      by (unfold fexp, emin, prec, emax; lia).
    rewrite Hf'.
    split; apply binary_round_aux_finite; rewrite ?digits2_pos_iter_xO; lia.
Qed.

Lemma binary_round_sign (sx : bool) (m : positive) (e : Z) :
  sign_is sx (binary_round prec emax sx m e) = true.
Proof.
  unfold binary_round. destruct (shl_align m e _) as [mz ez].
  apply binary_round_aux_sign. lia.
Qed.

Lemma binary_normalize_sign (z e : Z) :
  sign_is (z <? 0) (binary_normalize prec emax z e false) = true.
Proof.
  destruct z as [|p|p]; simpl; [reflexivity| |]; apply binary_round_sign.
Qed.

Lemma sign_is_not_nan (s : bool) (x : float64) :
  sign_is s x = true -> is_nan x = false.
Proof. by destruct x. Qed.

Lemma not_nan_sign (x : float64) :
  is_nan x = false -> exists s, sign_is s x = true.
Proof. destruct x as [s|s| |s m e]; try done; intros _; exists s; by destruct s. Qed.

Lemma of_int_sign (z : Z) : sign_is (z <? 0) (of_int z) = true.
Proof. apply binary_normalize_sign. Qed.

Lemma of_int_finite (z : Z) :
  z <> 0 -> - 2 ^ 63 <= z <= 2 ^ 63 -> is_finite (of_int z) = true.
Proof.
  intros Hz Hr. destruct z as [|p|p]; [done| |].
  - destruct (of_int_pos_finite p ltac:(lia)) as [(m & e & ->) _]. done.
  - destruct (of_int_pos_finite p ltac:(lia)) as [_ (m & e & ->)]. done.
Qed.

Lemma of_int_not_inf (z : Z) :
  - 2 ^ 63 <= z <= 2 ^ 63 -> is_inf (of_int z) = false.
Proof.
  intros Hr. destruct (decide (z = 0)) as [->|Hz]; [done|].
  pose proof (of_int_finite z Hz Hr). by destruct (of_int z).
Qed.

(** Division: the sign of the quotient is the exclusive or of the signs, and
    it is not a NaN as soon as one operand is finite and non-zero. *)
Lemma div_sign (sx sy : bool) (x y : float64) :
  sign_is sx x = true -> sign_is sy y = true ->
  is_finite x = true \/ is_finite y = true ->
  sign_is (xorb sx sy) (div x y) = true.
Proof.
  intros Hx Hy Hf.
  destruct x as [s1|s1| |s1 m1 e1], y as [s2|s2| |s2 m2 e2];
    simpl in *; try done; try (by destruct Hf);
    apply eqb_prop in Hx as <-; apply eqb_prop in Hy as <-;
    try apply eqb_reflx.
  unfold div, SFdiv.
  destruct (SFdiv_core_binary prec emax (Z.pos m1) e1 (Z.pos m2) e2)
    as [[q e'] l] eqn:E.
  apply binary_round_aux_sign.
  unfold SFdiv_core_binary in E.
  set (m' := match _ with Z.pos _ => _ | Z0 => _ | Z.neg _ => _ end) in E.
  assert (Hm' : 0 <= m').
  { unfold m'. destruct (e1 - e2 - _); [lia| |lia].
    apply Z.shiftl_nonneg. lia. }
  pose proof (Z_div_mod m' (Z.pos m2) ltac:(lia)) as Hdm.
  destruct (Z.div_eucl m' (Z.pos m2)) as [q' r']. injection E as <- _ _.
  nia.
Qed.

Lemma mul_sign (sx sy : bool) (x y : float64) :
  sign_is sx x = true -> sign_is sy y = true -> is_finite y = true ->
  sign_is (xorb sx sy) (mul x y) = true.
Proof.
  intros Hx Hy Hf.
  destruct x as [s1|s1| |s1 m1 e1], y as [s2|s2| |s2 m2 e2];
    simpl in *; try done;
    apply eqb_prop in Hx as <-; apply eqb_prop in Hy as <-;
    try apply eqb_reflx.
  apply binary_round_aux_sign. lia.
Qed.

(** Addition of two floats of the same sign keeps that sign. *)
Lemma add_sign (s : bool) (x y : float64) :
  sign_is s x = true -> sign_is s y = true -> sign_is s (add x y) = true.
Proof.
  intros Hx Hy.
  destruct x as [s1|s1| |s1 m1 e1], y as [s2|s2| |s2 m2 e2];
    simpl in *; try done;
    apply eqb_prop in Hx as <-; apply eqb_prop in Hy as <-;
    try (by destruct s).
  unfold add, SFadd.
  set (z := _ + _).
  assert (Hz : (z <? 0) = s).
  { unfold z. destruct s; simpl; [apply Z.ltb_lt|apply Z.ltb_ge]; lia. }
  rewrite <- Hz at 1. apply binary_normalize_sign.
Qed.

(** Addition yields a NaN only from infinities of opposite signs. *)
Lemma add_not_nan (x y : float64) :
  is_nan x = false -> is_nan y = false ->
  is_inf x = false \/ is_inf y = false ->
  is_nan (add x y) = false.
Proof.
  intros Hx Hy Hi.
  destruct x as [s1|s1| |s1 m1 e1], y as [s2|s2| |s2 m2 e2];
    simpl in *; try done; try (by destruct Hi); try (by destruct s1, s2).
  unfold add, SFadd. eapply sign_is_not_nan, binary_normalize_sign.
Qed.

Lemma leb_zero_of_sign (x : float64) :
  sign_is false x = true -> leb zero x = true.
Proof. destruct x as [s|s| |s m e]; try done; by destruct s. Qed.

Lemma SFcompare_antisym (x y : float64) :
  SFcompare y x = CompOpp <$> SFcompare x y.
Proof.
  destruct x as [s1|s1| |s1 m1 e1], y as [s2|s2| |s2 m2 e2];
    try reflexivity; try (by destruct s1); try (by destruct s2);
    try (by destruct s1, s2).
  cbn [SFcompare fmap option_fmap option_map].
  rewrite (Z.compare_antisym e1 e2).
  destruct s1, s2; try reflexivity;
    destruct (e1 ?= e2); cbn [CompOpp]; try reflexivity;
    by rewrite (Pos.compare_cont_antisym m1 m2 Eq).
Qed.

Lemma ltb_false_leb (x y : float64) :
  is_nan x = false -> is_nan y = false -> ltb y x = false -> leb x y = true.
Proof.
  unfold ltb, leb, SFltb, SFleb. rewrite (SFcompare_antisym x y).
  intros Hx Hy.
  destruct (SFcompare x y) as [[]|] eqn:E; cbn; try done.
  by destruct x as [| | |[]], y as [| | |[]].
Qed.

Lemma f100_not_nan : is_nan f100 = false.
Proof. apply (sign_is_not_nan false), (of_int_sign 100). Qed.

Lemma f100_finite : is_finite f100 = true.
Proof. apply of_int_finite; lia. Qed.

Lemma cap100_upper (x : float64) :
  is_nan x = false -> leb (cap100 x) f100 = true.
Proof.
  intros Hx. unfold cap100. destruct (ltb f100 x) eqn:E.
  - reflexivity.
  - apply ltb_false_leb; [done|apply f100_not_nan|done].
Qed.

Lemma cap100_sign (x : float64) :
  sign_is false x = true -> sign_is false (cap100 x) = true.
Proof. intros Hx. unfold cap100. by destruct (ltb f100 x). Qed.
End Rounding.

(** * The uptime formula *)

Lemma saturate_in_range (z : Z) : Int64.in_range (Duration.saturate z).
Proof.
  unfold Duration.saturate, Duration.minDuration, Duration.maxDuration,
    Int64.in_range, Int64.min_int, Int64.max_int.
  repeat case_match; lia.
Qed.

Lemma Sub_in_range (x u : Time.t) : Int64.in_range (Time.Sub x u).
Proof. unfold Time.Sub. repeat case_match; apply saturate_in_range. Qed.

(** Adding a duration and subtracting the original instant gives the
    duration back. *)
Lemma Sub_Add (x : Time.t) (d : Z) :
  Time.Sub (Time.Add x d) x = Duration.saturate d.
Proof.
  pose proof (Z.quot_rem' d 1000000000) as Hd.
  unfold Time.Sub, Time.Add, Duration.Second.
  destruct x as [sx nx [m|]]; cbn [Time.sec Time.nsec Time.mono];
    repeat case_match; cbn [Time.sec Time.nsec Time.mono] in *; simplify_eq;
    f_equal; lia.
Qed.

Lemma f1_finite : Float64.is_finite f1 = true.
Proof. apply of_int_finite; lia. Qed.

Lemma Minutes_not_nan (d : Z) : Float64.is_nan (Duration.Minutes d) = false.
Proof.
  unfold Duration.Minutes. apply add_not_nan.
  - eapply sign_is_not_nan, of_int_sign.
  - eapply sign_is_not_nan, div_sign; [apply of_int_sign..|].
    right. apply of_int_finite; lia.
  - left. apply of_int_not_inf. unfold Int64.quo.
    pose proof (wrap_in_range (Z.quot d Duration.Minute)) as H.
    unfold Int64.in_range, Int64.min_int, Int64.max_int in H. lia.
Qed.

Lemma Minutes_sign (d : Z) :
  0 <= d -> Int64.in_range d ->
  Float64.sign_is false (Duration.Minutes d) = true.
Proof.
  intros Hd Hr. unfold Duration.Minutes. apply add_sign.
  - assert (Hq : 0 <= Int64.quo d Duration.Minute).
    { unfold Int64.quo. rewrite wrap_id.
      - apply Z.quot_pos; [done|]. unfold Duration.Minute, Duration.Second. lia.
      - apply quot_in_range; [done|].
        unfold Duration.Minute, Duration.Second. lia. }
    pose proof (of_int_sign (Int64.quo d Duration.Minute)) as H.
    by rewrite (proj2 (Z.ltb_ge _ _) Hq) in H.
  - assert (Hn : 0 <= Int64.rem d Duration.Minute).
    { unfold Int64.rem. apply Z.rem_nonneg; [|done].
      unfold Duration.Minute, Duration.Second. lia. }
    pose proof (of_int_sign (Int64.rem d Duration.Minute)) as H.
    rewrite (proj2 (Z.ltb_ge _ _) Hn) in H.
    apply (div_sign false false); [done|reflexivity|].
    right. apply of_int_finite; lia.
Qed.

Section UptimeRaw.
Variable device : DeviceStats.
Hypothesis Hcount : 2 <= HeartbeatCount device <= Int64.max_int.

Lemma count_float_finite :
  Float64.is_finite (Float64.of_int (HeartbeatCount device)) = true /\
  Float64.sign_is false (Float64.of_int (HeartbeatCount device)) = true.
Proof.
  unfold Int64.max_int in Hcount. split.
  - apply of_int_finite; lia.
  - pose proof (of_int_sign (HeartbeatCount device)) as H.
    rewrite (proj2 (Z.ltb_ge _ _)) in H; [done|lia].
Qed.

Lemma uptime_raw_not_nan : Float64.is_nan (uptime_raw device) = false.
Proof.
  destruct count_float_finite as [Hf Hs]. unfold uptime_raw.
  destruct (not_nan_sign
              (Float64.add
                 (Duration.Minutes
                    (Time.Sub (LastHeartbeat device) (FirstHeartbeat device)))
                 f1)) as [s Hm].
  { apply add_not_nan; [apply Minutes_not_nan|reflexivity|by right]. }
  eapply sign_is_not_nan, (mul_sign _ false); [|reflexivity|apply f100_finite].
  apply (div_sign false s); [done|done|by left].
Qed.

Lemma uptime_raw_sign :
  0 <= Time.Sub (LastHeartbeat device) (FirstHeartbeat device) ->
  Float64.sign_is false (uptime_raw device) = true.
Proof.
  intros Hspan. destruct count_float_finite as [Hf Hs]. unfold uptime_raw.
  apply (mul_sign false false); [|reflexivity|apply f100_finite].
  apply (div_sign false false); [done| |by left].
  apply add_sign; [|reflexivity].
  apply Minutes_sign; [done|apply Sub_in_range].
Qed.
End UptimeRaw.

(** What [stats_of] reports as uptime, by the number of heartbeats. *)
Lemma stats_of_uptime (device : DeviceStats) :
  Uptime (stats_of device) =
  if 0 <? HeartbeatCount device then
    if HeartbeatCount device =? 1 then f100 else cap100 (uptime_raw device)
  else Float64.zero.
Proof. unfold stats_of. repeat case_match; reflexivity. Qed.

(** C2 (as worded): the five heartbeats at minute offsets 0, 2, 5, 8 and 10
    do not give 45.45 from every instant: counted from the zero instant, the
    first heartbeat leaves [FirstHeartbeat.IsZero()] true, the heartbeat at
    minute 2 becomes the first one, the span is 8 minutes and the uptime is
    (5/9)*100, about 55.56. *)
Lemma uptime_example_counterexample : ~ uptime_example_as_stated.
Proof.
  intros H. specialize (H Time.zero). vm_compute in H. discriminate H.
Qed.

(** What the code reports in that case: the binary64 nearest to (5/9)*100. *)
Lemma uptime_example_zero_base :
  Uptime (fst (eval (GetStats "device-1") (scen_offsets Time.zero)))
  = S754_finite false 7818749353073778 (-47) /\
  (Qabs (Float64.to_Q (S754_finite false 7818749353073778 (-47)) - (500 # 9))
   < (1 # 10000000000000))%Q.
Proof. split; reflexivity. Qed.

(** The record the three calls of [scen_same_minute] leave. *)
Lemma scen_same_minute_record (base : Time.t) :
  Time.IsZero base = false ->
  devices (scen_same_minute base) !! "device-1"
  = Some (mkDeviceStats "device-1" 3 base (Time.Add base (secs 20)) 0 0).
Proof.
  intros Hbase. unfold scen_same_minute. rewrite run_lookup.
  change (devices (initial test_rows) !! "device-1")
    with (Some (newDeviceStats "device-1")).
  cbn [replay op_update fst snd fmap option_fmap option_map].
  rewrite !decide_True by done. unfold heartbeat_update.
  cbn [ID HeartbeatCount FirstHeartbeat LastHeartbeat UploadCount
       UploadTimeSum newDeviceStats].
  change (Time.IsZero Time.zero) with true. cbv iota.
  repeat (rewrite Hbase; cbv iota). reflexivity.
Qed.

(** C2 (amended): for a known device with at least two heartbeats the
    reported uptime is (count / (minutes(last - first) + 1)) * 100 in
    [float64] arithmetic, with the constants 1 and 100, replaced by 100.0
    when it exceeds 100.0.  Counted from any instant other than the zero
    instant, five heartbeats at minute offsets 0, 2, 5, 8 and 10 give the
    binary64 nearest to (5/11)*100, within 1e-13 of 500/11; three heartbeats
    within 20 seconds, whose ratio is 225, are reported as exactly 100. *)
Theorem uptime_formula
    (s : Store) (deviceID : string) (device : DeviceStats) (base : Time.t) :
  devices s !! deviceID = Some device ->
  2 <= HeartbeatCount device ->
  Time.IsZero base = false ->
  (exists result,
     GetStats deviceID s = ((result, true), s) /\
     HasHeartbeats result = true /\
     let span := Time.Sub (LastHeartbeat device) (FirstHeartbeat device) in
     let denominator := Float64.add (Duration.Minutes span) f1 in
     let ratio :=
       Float64.mul
         (Float64.div (Float64.of_int (HeartbeatCount device)) denominator)
         f100 in
     Uptime result = if Float64.ltb f100 ratio then f100 else ratio) /\
  ((Float64.to_Q f1 == 1)%Q /\ (Float64.to_Q f100 == 100)%Q) /\
  (Uptime (fst (eval (GetStats "device-1") (scen_offsets base))) = uptime_5_in_11 /\
   (Qabs (Float64.to_Q uptime_5_in_11 - (500 # 11)) < (1 # 10000000000000))%Q) /\
  (exists device3,
     devices (scen_same_minute base) !! "device-1" = Some device3 /\
     HeartbeatCount device3 = 3 /\
     (Float64.to_Q (uptime_raw device3) == 225)%Q /\
     Uptime (fst (eval (GetStats "device-1") (scen_same_minute base)))
     = S754_finite false 7036874417766400 (-46) /\
     (Float64.to_Q
        (Uptime (fst (eval (GetStats "device-1") (scen_same_minute base))))
      == 100)%Q).
Proof.
  intros H Hc Hbase. split; [|split; [by split|split]].
  - exists (stats_of device). rewrite (GetStats_known _ _ _ H).
    assert (H0 : (0 <? HeartbeatCount device) = true) by (apply Z.ltb_lt; lia).
    assert (H1 : (HeartbeatCount device =? 1) = false) by (apply Z.eqb_neq; lia).
    split; [done|]. split.
    + unfold stats_of. rewrite H0, H1. by case_match.
    + cbv zeta. rewrite stats_of_uptime, H0, H1. reflexivity.
  - split; [|reflexivity].
    assert (E : devices (scen_offsets base) !! "device-1"
                = Some (mkDeviceStats "device-1" 5 base
                          (Time.Add base (mins 10)) 0 0)).
    { unfold scen_offsets. rewrite run_lookup.
      change (devices (initial test_rows) !! "device-1")
        with (Some (newDeviceStats "device-1")).
      cbn [replay op_update fst snd fmap option_fmap option_map].
      rewrite !decide_True by done. unfold heartbeat_update.
      cbn [ID HeartbeatCount FirstHeartbeat LastHeartbeat UploadCount
           UploadTimeSum newDeviceStats].
      change (Time.IsZero Time.zero) with true. cbv iota.
      repeat (rewrite Hbase; cbv iota). reflexivity. }
    unfold eval. rewrite (GetStats_known _ _ _ E). cbn [fst].
    rewrite stats_of_uptime. cbn [HeartbeatCount].
    change (0 <? 5) with true. change (5 =? 1) with false. cbv iota.
    unfold uptime_raw. cbn [HeartbeatCount FirstHeartbeat LastHeartbeat].
    rewrite Sub_Add. vm_compute. reflexivity.
  - pose proof (scen_same_minute_record base Hbase) as E.
    assert (Eraw : uptime_raw (mkDeviceStats "device-1" 3 base
                                 (Time.Add base (secs 20)) 0 0)
                   = S754_finite false 7916483719987200 (-45)).
    { unfold uptime_raw. cbn [HeartbeatCount FirstHeartbeat LastHeartbeat].
      rewrite Sub_Add. vm_compute. reflexivity. }
    assert (Eup : Uptime (fst (eval (GetStats "device-1") (scen_same_minute base)))
                  = S754_finite false 7036874417766400 (-46)).
    { unfold eval. rewrite (GetStats_known _ _ _ E). cbn [fst].
      rewrite stats_of_uptime. cbn [HeartbeatCount].
      change (0 <? 3) with true. change (3 =? 1) with false. cbv iota.
      rewrite Eraw. reflexivity. }
    eexists. split; [exact E|]. split; [reflexivity|].
    split; [by rewrite Eraw|]. split; [exact Eup|]. by rewrite Eup.
Qed.

Lemma uptime_formula_witness :
  (Uptime (fst (eval (GetStats "device-1") (scen_offsets baseTime)))
   = uptime_5_in_11 /\
   (Qabs (Float64.to_Q uptime_5_in_11 - (500 # 11)) < (1 # 10000000000000))%Q) /\
  (exists device3,
     devices (scen_same_minute baseTime) !! "device-1" = Some device3 /\
     HeartbeatCount device3 = 3 /\
     (Float64.to_Q (uptime_raw device3) == 225)%Q /\
     Uptime (fst (eval (GetStats "device-1") (scen_same_minute baseTime)))
     = S754_finite false 7036874417766400 (-46) /\
     (Float64.to_Q
        (Uptime (fst (eval (GetStats "device-1") (scen_same_minute baseTime))))
      == 100)%Q).
Proof.
  apply (uptime_formula (scen_offsets baseTime) "device-1"
           (mkDeviceStats "device-1" 5 baseTime
              (Time.Add baseTime (mins 10)) 0 0) baseTime).
  - reflexivity.
  - simpl. lia.
  - reflexivity.
Defined.

(** * The range of the uptime percentage *)

(** Heartbeats at minute 10 and then at minute 0: the reported uptime is the
    binary64 nearest to -200/9, about -22.2. *)
Example backwards_uptime_negative :
  Uptime (fst (eval (GetStats "device-1") scen_backwards))
  = S754_finite true 6254999482459022 (-48) /\
  Float64.ltb (Uptime (fst (eval (GetStats "device-1") scen_backwards)))
              Float64.zero = true.
Proof. split; reflexivity. Qed.

(** Two heartbeats one minute apart and uploads of 5s and 15s: uptime 100.0
    and an average of 10s at once. *)
Example combined_scenario :
  fst (eval (GetStats "device-1") scen_combined)
  = mkStatsResult true true f100 (secs 10).
Proof. reflexivity. Qed.

(** C7 (as worded): refuted by two heartbeats whose second timestamp lies
    ten minutes before the first: the span is -10 minutes, the denominator
    -9, and the reported uptime is 2 / -9 * 100, a negative number. *)
Lemma uptime_range_counterexample : ~ uptime_range_as_stated.
Proof.
  intros H.
  destruct (H test_rows
              [OpHeartbeat "device-1" (Time.Add baseTime (mins 10));
               OpHeartbeat "device-1" baseTime]
              "device-1" _ eq_refl) as [Hlow _].
  vm_compute in Hlow. discriminate Hlow.
Qed.

(** C7 (amended): on every store reached from a loaded roster, the uptime
    reported for a known device is a number not above 100.0; it is not below
    0 whenever the stored last heartbeat is not earlier than the stored
    first heartbeat. *)
Theorem uptime_range
    (records : list (list string)) (ops : list Op) (deviceID : string)
    (device : DeviceStats) :
  let s := run ops (initial records) in
  devices s !! deviceID = Some device ->
  exists result,
    GetStats deviceID s = ((result, true), s) /\
    Float64.leb (Uptime result) f100 = true /\
    (0 <= Time.Sub (LastHeartbeat device) (FirstHeartbeat device) ->
     Float64.leb Float64.zero (Uptime result) = true).
Proof.
  intros s H. exists (stats_of device). rewrite (GetStats_known _ _ _ H).
  split; [done|]. rewrite stats_of_uptime.
  pose proof (reachable_count_in_range _ _ _ _ H) as [_ Hmax].
  destruct (0 <? HeartbeatCount device) eqn:E0; [|by split].
  destruct (HeartbeatCount device =? 1) eqn:E1; [by split|].
  apply Z.ltb_lt in E0. apply Z.eqb_neq in E1.
  assert (Hc : 2 <= HeartbeatCount device <= Int64.max_int) by lia.
  split.
  - apply cap100_upper, uptime_raw_not_nan, Hc.
  - intros Hspan. by apply leb_zero_of_sign, cap100_sign, uptime_raw_sign.
Qed.

Lemma uptime_range_witness :
  exists result,
    GetStats "device-1" scen_combined = ((result, true), scen_combined) /\
    Float64.leb (Uptime result) f100 = true /\
    (0 <= Time.Sub (Time.Add baseTime (mins 1)) baseTime ->
     Float64.leb Float64.zero (Uptime result) = true).
Proof.
  apply (uptime_range test_rows
           [OpHeartbeat "device-1" baseTime;
            OpHeartbeat "device-1" (Time.Add baseTime (mins 1));
            OpUpload "device-1" (secs 5);
            OpUpload "device-1" (secs 15)]
           "device-1"
           (mkDeviceStats "device-1" 2 baseTime (Time.Add baseTime (mins 1))
              2 (secs 20))).
  reflexivity.
Defined.

(** * Concurrent heartbeats *)

Section Interleavings.
Import Concurrent.

Lemma total_insert {A} (f : A -> Z) (l : list A) (i : nat) (x y : A) :
  l !! i = Some x -> total f (<[i := y]> l) = total f l - f x + f y.
Proof.
  revert i. induction l as [|a l IH]; intros [|i] H; simplify_eq/=; [lia|].
  rewrite (IH _ H). lia.
Qed.

Lemma total_nonneg {A} (f : A -> Z) (l : list A) :
  (forall a, 0 <= f a) -> 0 <= total f l.
Proof.
  intros Hf. induction l as [|a l IH]; simpl; [lia|]. specialize (Hf a). lia.
Qed.

Lemma total_lookup_le {A} (f : A -> Z) (l : list A) (i : nat) (x : A) :
  (forall a, 0 <= f a) -> l !! i = Some x -> f x <= total f l.
Proof.
  intros Hf. revert i. induction l as [|a l IH]; intros [|i] H; simplify_eq/=.
  - pose proof (total_nonneg f l Hf). lia.
  - specialize (IH _ H). specialize (Hf a). lia.
Qed.

Lemma total_pos_lookup {A} (f : A -> Z) (l : list A) :
  (forall a, 0 <= f a) -> 0 < total f l ->
  exists i x, l !! i = Some x /\ 0 < f x.
Proof.
  intros Hf. induction l as [|a l IH]; simpl; [lia|]. intros H.
  destruct (Z.lt_ge_cases 0 (f a)) as [Ha|Ha].
  - by exists 0%nat, a.
  - destruct IH as (i & x & Hi & Hx); [specialize (Hf a); lia|].
    by exists (S i), x.
Qed.

Lemma in_cs_range (t : Thread) : 0 <= in_cs t <= 1.
Proof. unfold in_cs. destruct (pc t); lia. Qed.

(** Only one goroutine is inside the critical section. *)
Lemma others_outside (l : list Thread) (i j : nat) (t t' : Thread) :
  total in_cs l <= 1 -> l !! i = Some t -> in_cs t = 1 ->
  l !! j = Some t' -> j <> i -> in_cs t' = 0.
Proof.
  intros Hle Hi Ht Hj Hne.
  pose proof (total_insert in_cs l i t (mkThread (target t) (sentAt t) AtLock) Hi) as E.
  assert (Hj' : <[i := mkThread (target t) (sentAt t) AtLock]> l !! j = Some t')
    by (rewrite list_lookup_insert_ne; done).
  pose proof (total_lookup_le in_cs _ j t' (fun a => proj1 (in_cs_range a)) Hj').
  pose proof (in_cs_range t'). cbn in E. lia.
Qed.

Lemma measures_at (t : Thread) :
  counted t = counted (mkThread (target t) (sentAt t) (pc t)) /\
  in_cs t = in_cs (mkThread (target t) (sentAt t) (pc t)).
Proof. by destruct t. Qed.

Lemma good_outside (k : string) (d d' : DeviceStats) (t : Thread) :
  in_cs t = 0 -> good k d t -> good k d' t.
Proof. unfold in_cs, good. destruct (pc t); try lia; tauto. Qed.

Lemma good_same_count (k : string) (d d' : DeviceStats) (t : Thread) :
  HeartbeatCount d' = HeartbeatCount d -> good k d t -> good k d' t.
Proof. unfold good. intros ->. tauto. Qed.

Lemma fuel_insert (l : list Thread) (i : nat) (t t' : Thread) :
  l !! i = Some t -> S (remaining t') = remaining t ->
  S (foldr (fun t acc => (remaining t + acc)%nat) 0%nat (<[i := t']> l))
  = foldr (fun t acc => (remaining t + acc)%nat) 0%nat l.
Proof.
  revert i. induction l as [|a l IH]; intros [|i] H Hr; simplify_eq/=; [lia|].
  rewrite <- (IH _ H Hr). lia.
Qed.

Section Invariant.
Variables (k : string) (c0 : Z).

Lemma Inv_start (stamps : list Time.t) (s : Store) (d : DeviceStats) :
  devices s !! k = Some d -> HeartbeatCount d = c0 -> Int64.in_range c0 ->
  Inv k c0 (start k stamps s).
Proof.
  intros H Hc Hr. exists d. unfold start; cbn [shared threads mu].
  assert (Ht : forall f, (forall t, f (mkThread k t AtLock) = 0) ->
               total f (map (fun t => mkThread k t AtLock) stamps) = 0).
  { intros f Hf. induction stamps as [|t l IH]; simpl; [done|]. rewrite Hf. lia. }
  rewrite !Ht by done. repeat split; [done| |].
  - rewrite Z.add_0_r, wrap_id; done.
  - clear Ht. induction stamps as [|t l IH]; simpl; constructor; [by split|done].
Qed.

(** Every step a goroutine can take keeps the invariant and uses up one
    unit of fuel. *)
Lemma Inv_step (i : nat) (c c' : Config) :
  Inv k c0 c -> sched_step i c = Some c' ->
  Inv k c0 c' /\ S (fuel c') = fuel c /\
  length (threads c') = length (threads c).
Proof.
  intros (d & Hd & Hcount & Hcs & Hgood) Hstep. unfold sched_step in Hstep.
  destruct (threads c !! i) as [t|] eqn:Hi; [|done].
  pose proof (proj1 (Forall_lookup _ _) Hgood i t Hi) as [Hk Hpc].
  assert (Hle : total in_cs (threads c) <= 1) by (destruct (mu c); lia).
  assert (Hout : in_cs t = 1 -> forall j t', threads c !! j = Some t' ->
                 j <> i -> in_cs t' = 0)
    by (intros Ht j t' Hj Hne; exact (others_outside _ i j t t' Hle Hi Ht Hj Hne)).
  unfold thread_step in Hstep. rewrite Hk, Hd in Hstep.
  destruct (pc t) as [| | |old| | |r|r] eqn:Ep;
    [destruct (mu c) eqn:Em; [done|] | .. | done];
    injection Hstep as <-; unfold Inv, fuel; cbn [threads shared mu];
    (split; [|split; [eapply fuel_insert; [done|by unfold remaining; rewrite Ep]
                     |by rewrite length_insert]]).
  - (* Lock *)
    exists d. rewrite !(total_insert _ _ _ _ _ Hi).
    rewrite (proj1 (measures_at t)), (proj2 (measures_at t)), Ep.
    cbn [counted in_cs pc]. repeat split; [done| |lia|].
    + rewrite Hcount. f_equal. lia.
    + apply Forall_insert; [done|]. by split.
  - (* map lookup *)
    exists d. rewrite !(total_insert _ _ _ _ _ Hi).
    rewrite (proj1 (measures_at t)), (proj2 (measures_at t)), Ep.
    cbn [counted in_cs pc]. repeat split; [done| |lia|].
    + rewrite Hcount. f_equal. lia.
    + apply Forall_insert; [done|]. by split.
  - (* load of the count *)
    exists d. rewrite !(total_insert _ _ _ _ _ Hi).
    rewrite (proj1 (measures_at t)), (proj2 (measures_at t)), Ep.
    cbn [counted in_cs pc]. repeat split; [done| |lia|].
    + rewrite Hcount. f_equal. lia.
    + apply Forall_insert; [done|]. by split.
  - (* store of the count *)
    exists (set_count (Int64.add old 1) d). unfold through. cbn [devices].
    rewrite lookup_alter_eq, Hd, !(total_insert _ _ _ _ _ Hi).
    rewrite (proj1 (measures_at t)), (proj2 (measures_at t)), Ep.
    cbn [counted in_cs pc].
    repeat split; [|lia|].
    + unfold set_count, Int64.add. cbn [HeartbeatCount].
      rewrite Hpc, Hcount, wrap_wrap_add. f_equal. lia.
    + apply Forall_lookup. intros j t' Hj.
      destruct (decide (j = i)) as [->|Hne].
      * rewrite list_lookup_insert_eq in Hj by (by eapply lookup_lt_Some).
        injection Hj as <-. by split.
      * rewrite list_lookup_insert_ne in Hj by done.
        eapply good_outside; [|exact (proj1 (Forall_lookup _ _) Hgood j t' Hj)].
        eapply Hout; [by unfold in_cs; rewrite Ep|done..].
  - (* first heartbeat *)
    exists (set_first_if_zero (sentAt t) d). unfold through. cbn [devices].
    rewrite lookup_alter_eq, Hd, !(total_insert _ _ _ _ _ Hi).
    rewrite (proj1 (measures_at t)), (proj2 (measures_at t)), Ep.
    cbn [counted in_cs pc].
    assert (Hsame : HeartbeatCount (set_first_if_zero (sentAt t) d)
                    = HeartbeatCount d)
      by (unfold set_first_if_zero; destruct (Time.IsZero (FirstHeartbeat d)); done).
    repeat split; [|lia|].
    + rewrite Hsame, Hcount. f_equal. lia.
    + apply Forall_insert; [|by split].
      eapply Forall_impl; [exact Hgood|]. intros t'. by apply good_same_count.
  - (* last heartbeat *)
    exists (set_last (sentAt t) d). unfold through. cbn [devices].
    rewrite lookup_alter_eq, Hd, !(total_insert _ _ _ _ _ Hi).
    rewrite (proj1 (measures_at t)), (proj2 (measures_at t)), Ep.
    cbn [counted in_cs pc].
    repeat split; [|lia|].
    + unfold set_last. cbn [HeartbeatCount]. rewrite Hcount. f_equal. lia.
    + apply Forall_insert; [|by split].
      eapply Forall_impl; [exact Hgood|]. intros t'. by apply good_same_count.
  - (* Unlock *)
    exists d. rewrite !(total_insert _ _ _ _ _ Hi).
    rewrite (proj1 (measures_at t)), (proj2 (measures_at t)), Ep.
    cbn [counted in_cs pc].
    assert (Hmu : mu c = true).
    { destruct (mu c); [done|].
      pose proof (total_lookup_le in_cs _ i t (fun a => proj1 (in_cs_range a)) Hi) as H.
      unfold in_cs at 1 in H. rewrite Ep in H. lia. }
    rewrite Hmu in Hcs. destruct r; [|done].
    repeat split; [done| |lia|].
    + rewrite Hcount. f_equal. lia.
    + apply Forall_insert; [done|]. by split.
Qed.

Lemma Inv_run (sched : list nat) (c c' : Config) :
  Inv k c0 c -> run_schedule sched c = Some c' ->
  Inv k c0 c' /\ length (threads c') = length (threads c).
Proof.
  revert c. induction sched as [|i sched IH]; intros c HI Hrun; simpl in Hrun.
  - by injection Hrun as <-.
  - destruct (sched_step i c) as [c1|] eqn:E; [|done].
    destruct (Inv_step i c c1 HI E) as (HI1 & _ & Hlen).
    destruct (IH c1 HI1 Hrun) as [? ?]. split; [done|congruence].
Qed.

(** A goroutine that has not returned, or the one holding the lock, can
    always move: no interleaving gets stuck. *)
Lemma Inv_progress (c : Config) :
  Inv k c0 c -> all_done c = false -> exists i c', sched_step i c = Some c'.
Proof.
  intros (d & Hd & Hcount & Hcs & Hgood) Hnd.
  destruct (mu c) eqn:Em.
  - destruct (total_pos_lookup in_cs (threads c)
                (fun a => proj1 (in_cs_range a)) ltac:(lia)) as (i & t & Hi & Ht).
    pose proof (proj1 (Forall_lookup _ _) Hgood i t Hi) as [Hk Hpc].
    exists i. unfold sched_step, thread_step. rewrite Hi, Hk, Hd.
    unfold in_cs in Ht. destruct (pc t); try lia; eexists; reflexivity.
  - unfold all_done in Hnd.
    assert (Hex : exists i t, threads c !! i = Some t /\ is_done t = false).
    { clear -Hnd. induction (threads c) as [|a l IH]; [done|]. simpl in Hnd.
      destruct (is_done a) eqn:Ea.
      - destruct (IH Hnd) as (i & t & ? & ?). by exists (S i), t.
      - by exists 0%nat, a. }
    destruct Hex as (i & t & Hi & Ht).
    pose proof (total_lookup_le in_cs _ i t (fun a => proj1 (in_cs_range a)) Hi) as Hle.
    exists i. unfold sched_step, thread_step. rewrite Hi, Em.
    unfold is_done in Ht. unfold in_cs at 1 in Hle.
    destruct (pc t); try done; try lia; eexists; reflexivity.
Qed.

(** Every interleaving can be continued until all goroutines have returned. *)
Lemma Inv_completes (n : nat) (c : Config) :
  (fuel c <= n)%nat -> Inv k c0 c ->
  exists sched c', run_schedule sched c = Some c' /\ all_done c' = true.
Proof.
  revert c. induction n as [|n IH]; intros c Hn HI;
    (destruct (all_done c) eqn:Ed; [by exists [], c|]);
    destruct (Inv_progress c HI Ed) as (i & c1 & Hs);
    destruct (Inv_step i c c1 HI Hs) as (HI1 & Hf & _); [lia|].
  destruct (IH c1 ltac:(lia) HI1) as (sched & c' & Hr & Hd).
  exists (i :: sched), c'. simpl. by rewrite Hs.
Qed.

(** When all goroutines have returned, each increment has been counted. *)
Lemma Inv_final (c : Config) :
  Inv k c0 c -> all_done c = true ->
  exists d,
    devices (shared c) !! k = Some d /\
    HeartbeatCount d = Int64.wrap (c0 + Z.of_nat (length (threads c))) /\
    forallb returned_true (threads c) = true.
Proof.
  intros (d & Hd & Hcount & _ & Hgood) Hdone. exists d. split; [done|].
  unfold all_done in Hdone.
  assert (H : total counted (threads c) = Z.of_nat (length (threads c)) /\
              forallb returned_true (threads c) = true).
  { clear Hcount. induction Hgood as [|t l [_ Ht] _ IH]; [done|].
    simpl in Hdone. apply andb_true_iff in Hdone as [Hd1 Hd2].
    destruct (IH Hd2) as [IH1 IH2]. cbn [total foldr forallb length].
    fold (total counted l). rewrite IH1, IH2.
    unfold counted, returned_true, is_done in *.
    destruct (pc t) as [| | | | | | |[]]; try done. split; [lia|done]. }
  destruct H as [H1 H2]. by rewrite Hcount, H1.
Qed.
End Invariant.

(** X19: run alone from [Lock] to [Unlock], a goroutine does to the store
    what the method [RecordHeartbeat] does in one step, returns true and
    leaves the lock free. *)
Lemma solo_call_is_RecordHeartbeat
    (c : Config) (i : nat) (t : Thread) (d : DeviceStats) :
  threads c !! i = Some t -> pc t = AtLock -> mu c = false ->
  devices (shared c) !! target t = Some d ->
  run_schedule (replicate 7 i) c
  = Some (mkConfig false
            (exec (RecordHeartbeat (target t) (sentAt t)) (shared c))
            (<[i := mkThread (target t) (sentAt t) (Done true)]> (threads c))).
Proof.
  intros Hi Hp Hm Hd.
  assert (Hlt : (i < length (threads c))%nat) by (by eapply lookup_lt_Some).
  unfold exec. rewrite (RecordHeartbeat_known _ _ _ _ Hd).
  cbn [replicate run_schedule].
  unfold sched_step at 1. rewrite Hi. unfold thread_step. rewrite Hp, Hm.
  repeat (unfold sched_step at 1; cbn [threads shared mu];
          rewrite list_lookup_insert_eq by (rewrite ?length_insert; done);
          unfold thread_step; cbn [pc target sentAt mu shared];
          unfold through; cbn [devices];
          rewrite ?lookup_alter_eq, ?Hd; cbn [fmap option_fmap option_map];
          rewrite ?list_insert_insert_eq).
  f_equal. f_equal. cbn [snd]. f_equal. apply map_eq. intros j.
  destruct (decide (j = target t)) as [->|Hne].
  - rewrite !lookup_alter_eq, Hd, lookup_insert_eq. cbn. f_equal.
    unfold set_last, set_first_if_zero, set_count, heartbeat_update. cbn.
    by destruct (Time.IsZero (FirstHeartbeat d)).
  - rewrite !lookup_alter_ne by done. by rewrite lookup_insert_ne.
Qed.
End Interleavings.

(** C9: when N goroutines each call [RecordHeartbeat] once for the same
    known device whose count is zero, every interleaving of their steps that
    runs all of them to completion leaves the count at exactly N, with every
    call returning true; and such an interleaving exists from the start. *)
Theorem concurrent_heartbeats_all_counted
    (deviceID : string) (stamps : list Time.t) (s : Store) (device : DeviceStats) :
  devices s !! deviceID = Some device ->
  HeartbeatCount device = 0 ->
  Z.of_nat (length stamps) < 2 ^ 63 ->
  (forall sched c',
     Concurrent.run_schedule sched (Concurrent.start deviceID stamps s) = Some c' ->
     Concurrent.all_done c' = true ->
     exists device',
       devices (Concurrent.shared c') !! deviceID = Some device' /\
       HeartbeatCount device' = Z.of_nat (length stamps) /\
       forallb Concurrent.returned_true (Concurrent.threads c') = true) /\
  (exists sched c',
     Concurrent.run_schedule sched (Concurrent.start deviceID stamps s) = Some c' /\
     Concurrent.all_done c' = true).
Proof.
  intros Hd Hc Hn.
  assert (HI : Concurrent.Inv deviceID 0 (Concurrent.start deviceID stamps s)).
  { apply (Inv_start deviceID 0 stamps s device Hd Hc).
    unfold Int64.in_range, Int64.min_int, Int64.max_int. lia. }
  split.
  - intros sched c' Hrun Hdone.
    destruct (Inv_run deviceID 0 sched _ c' HI Hrun) as [HI' Hlen].
    destruct (Inv_final deviceID 0 c' HI' Hdone) as (d' & Hd' & Hcount & Hret).
    exists d'. split; [done|]. split; [|done].
    rewrite Hcount, Hlen. unfold Concurrent.start. cbn [Concurrent.threads].
    rewrite length_map, Z.add_0_l. apply wrap_id.
    unfold Int64.in_range, Int64.min_int, Int64.max_int. lia.
  - exact (Inv_completes deviceID 0 _ _ (le_n _) HI).
Qed.

Lemma concurrent_heartbeats_witness :
  exists device',
    devices (Concurrent.shared
               (Concurrent.outcome three_schedule
                  (Concurrent.start "device-1" three_stamps (initial test_rows))))
      !! "device-1" = Some device' /\
    HeartbeatCount device' = 3 /\
    forallb Concurrent.returned_true
      (Concurrent.threads
         (Concurrent.outcome three_schedule
            (Concurrent.start "device-1" three_stamps (initial test_rows))))
    = true.
Proof.
  apply (proj1 (concurrent_heartbeats_all_counted "device-1" three_stamps
                  (initial test_rows) (newDeviceStats "device-1")
                  eq_refl eq_refl eq_refl) three_schedule).
  - reflexivity.
  - reflexivity.
Defined.

(** * Loading the roster *)

Lemma store_eq (s1 s2 : Store) : devices s1 = devices s2 -> s1 = s2.
Proof. destruct s1, s2. simpl. by intros ->. Qed.

Lemma load_rows_lookup (rows : list (list string)) (s : Store) (k : string) :
  devices (exec (load_rows rows) s) !! k =
  if decide (k ∈ roster_ids ([] :: rows))
  then Some (newDeviceStats k) else devices s !! k.
Proof.
  unfold roster_ids. cbn [tail].
  revert s. induction rows as [|row rows IH]; intros s.
  - cbn. rewrite decide_False; [done|apply not_elem_of_nil].
  - rewrite load_rows_cons, IH. cbn [omap list_omap].
    destruct row as [|id rest]; [done|].
    unfold load_row. destruct (decide (id = "")) as [E|E]; [done|].
    unfold_M. destruct (decide (k = id)) as [->|Hne].
    + rewrite lookup_insert_eq.
      rewrite (decide_True (P := id ∈ id :: _)) by apply list_elem_of_here.
      by case_decide.
    + rewrite lookup_insert_ne by done.
      destruct (decide (k ∈ omap _ rows)) as [HL|HL].
      * by rewrite decide_True by (by apply list_elem_of_further).
      * rewrite decide_False; [done|]. by intros [?|?]%elem_of_cons.
Qed.

Lemma LoadDevices_lookup
    (records : list (list string)) (s : Store) (k : string) :
  devices (exec (LoadDevices records) s) !! k =
  if decide (k ∈ roster_ids records)
  then Some (newDeviceStats k) else devices s !! k.
Proof.
  unfold LoadDevices. rewrite load_rows_lookup. unfold roster_ids.
  cbn [tail]. done.
Qed.

(** X1: loading a parsed roster registers a zero-valued record under the
    first column of every row after the header, empty columns excepted; a
    record already stored under such an identifier is replaced by the zero
    record, every other key keeps what it had. *)
Theorem LoadDevices_registers
    (records : list (list string)) (s : Store) (k : string) :
  devices (exec (LoadDevices records) s) !! k =
  if decide (k ∈ roster_ids records)
  then Some (newDeviceStats k) else devices s !! k.
Proof. apply LoadDevices_lookup. Qed.

Lemma roster_ids_nonempty (records : list (list string)) :
  "" ∉ roster_ids records.
Proof.
  unfold roster_ids. intros [row [Hin Hrow]]%list_elem_of_omap.
  destruct row as [|id rest]; [done|]. by case_decide; simplify_eq.
Qed.

Lemma initial_lookup (records : list (list string)) (k : string) :
  devices (initial records) !! k =
  if decide (k ∈ roster_ids records) then Some (newDeviceStats k) else None.
Proof.
  unfold initial. rewrite LoadDevices_lookup. unfold NewStore; simpl.
  by rewrite lookup_empty.
Qed.

(** X2: on a freshly loaded store [DeviceExists] holds exactly of the
    roster identifiers, never of the empty string, and [DeviceCount] is the
    number of distinct roster identifiers. *)
Theorem loaded_store_devices (records : list (list string)) (k : string) :
  eval (DeviceExists k) (initial records) = bool_decide (k ∈ roster_ids records) /\
  eval (DeviceExists "") (initial records) = false /\
  eval DeviceCount (initial records)
  = length (remove_dups (roster_ids records)).
Proof.
  assert (Hex : forall k', eval (DeviceExists k') (initial records)
                           = bool_decide (k' ∈ roster_ids records)).
  { intros k'. unfold eval. rewrite DeviceExists_eq, initial_lookup.
    cbn [fst]. destruct (decide (k' ∈ roster_ids records)).
    - by rewrite bool_decide_eq_true_2.
    - by rewrite bool_decide_eq_false_2. }
  split; [apply Hex|]. split.
  - rewrite Hex. apply bool_decide_eq_false_2, roster_ids_nonempty.
  - unfold DeviceCount. unfold_M.
    rewrite <- size_dom.
    assert (Hdom : dom (devices (initial records))
                   = list_to_set (remove_dups (roster_ids records)) :> gset string).
    { apply set_eq. intros x. rewrite elem_of_dom, initial_lookup.
      rewrite elem_of_list_to_set, elem_of_remove_dups.
      case_decide; split; try done; by intros []. }
    rewrite Hdom. apply size_list_to_set, NoDup_remove_dups.
Qed.

(** X3: no sequence of heartbeat and upload calls changes which devices
    exist or how many there are. *)
Theorem keys_never_change (ops : list Op) (s : Store) (k : string) :
  eval (DeviceExists k) (run ops s) = eval (DeviceExists k) s /\
  eval DeviceCount (run ops s) = eval DeviceCount s.
Proof.
  pose proof (run_dom ops s) as Hdom. split.
  - unfold eval. rewrite !DeviceExists_eq. simpl.
    assert (H : is_Some (devices (run ops s) !! k) <-> is_Some (devices s !! k))
      by (rewrite <- !elem_of_dom, Hdom; done).
    destruct (devices (run ops s) !! k), (devices s !! k); try done;
      destruct H as [H1 H2]; [by destruct H1|by destruct H2].
  - unfold DeviceCount. unfold_M. by rewrite <- !size_dom, Hdom.
Qed.

(** * Records as summaries of the history *)

Lemma replay_last (k : string) (ops : list Op) (d : DeviceStats) :
  LastHeartbeat (replay k ops d) = default (LastHeartbeat d) (last_stamp k ops).
Proof.
  revert d. induction ops as [|op ops IH]; intros d; cbn [replay last_stamp];
    [done|].
  rewrite IH. destruct op as [k' t|k' u]; cbn [op_update fst snd].
  - destruct (last_stamp k ops); [done|]. by case_decide.
  - by case_decide.
Qed.

Lemma replay_first (k : string) (ops : list Op) (d : DeviceStats) :
  stamps_nonzero ops = true ->
  Time.IsZero (FirstHeartbeat d) = true ->
  FirstHeartbeat (replay k ops d) = default (FirstHeartbeat d) (first_stamp k ops).
Proof.
  revert d. induction ops as [|op ops IH]; intros d Hs Hz;
    cbn [replay first_stamp]; [done|].
  simpl in Hs. apply andb_true_iff in Hs as [Hop Hs].
  destruct op as [k' t|k' u]; cbn [op_update fst snd].
  - case_decide; [|by apply IH].
    rewrite replay_first_kept; unfold heartbeat_update; cbn [FirstHeartbeat];
      rewrite Hz; [done|]. by apply negb_true_iff.
  - case_decide; by rewrite IH.
Qed.

Lemma in_range_0 : Int64.in_range 0.
Proof. unfold Int64.in_range, Int64.min_int, Int64.max_int. lia. Qed.

Lemma wrap_small (z : Z) : 0 <= z < 2 ^ 63 -> Int64.wrap z = z.
Proof.
  intros H. apply wrap_id.
  unfold Int64.in_range, Int64.min_int, Int64.max_int. lia.
Qed.

Section Reachable.
Variables (records : list (list string)) (ops : list Op) (k : string)
          (d : DeviceStats).
Hypothesis Hd : devices (run ops (initial records)) !! k = Some d.

(** X4: in every store reached from a loaded roster, a record's [ID] is
    the key it is stored under and its three integer fields are [int64]
    values. *)
Theorem reachable_record_shape :
  ID d = k /\
  Int64.in_range (HeartbeatCount d) /\
  Int64.in_range (UploadCount d) /\
  Int64.in_range (UploadTimeSum d).
Proof.
  destruct (reachable_record _ _ _ _ Hd) as [_ ->].
  rewrite replay_ID, replay_heartbeat_count, replay_upload_count,
    replay_upload_sum by apply in_range_0.
  repeat split; apply wrap_in_range.
Qed.

(** X5: below 2^63 calls, the two counters are the numbers of heartbeats
    and uploads addressed to the device, and [GetStats] reports
    [HasHeartbeats] (resp. [HasUploads]) exactly when at least one heartbeat
    (resp. upload) was recorded. *)
Theorem counts_track_history :
  Z.of_nat (heartbeats_recorded k ops) < 2 ^ 63 ->
  Z.of_nat (uploads_recorded k ops) < 2 ^ 63 ->
  HeartbeatCount d = Z.of_nat (heartbeats_recorded k ops) /\
  UploadCount d = Z.of_nat (uploads_recorded k ops) /\
  (HasHeartbeats (stats_of d) = true <-> heartbeats_recorded k ops <> 0%nat) /\
  (HasUploads (stats_of d) = true <-> uploads_recorded k ops <> 0%nat).
Proof.
  intros Hh Hu. destruct (reachable_record _ _ _ _ Hd) as [_ ->].
  assert (Eh : HeartbeatCount (replay k ops (newDeviceStats k))
               = Z.of_nat (heartbeats_recorded k ops))
    by (rewrite replay_heartbeat_count by apply in_range_0;
        cbn [newDeviceStats HeartbeatCount]; rewrite Z.add_0_l;
        apply wrap_small; lia).
  assert (Eu : UploadCount (replay k ops (newDeviceStats k))
               = Z.of_nat (uploads_recorded k ops))
    by (rewrite replay_upload_count by apply in_range_0;
        cbn [newDeviceStats UploadCount]; rewrite Z.add_0_l;
        apply wrap_small; lia).
  split; [done|]. split; [done|]. unfold stats_of. rewrite Eh, Eu.
  split.
  - destruct (0 <? Z.of_nat (heartbeats_recorded k ops)) eqn:E0.
    + apply Z.ltb_lt in E0.
      assert (HasHeartbeats
                (if Z.of_nat (heartbeats_recorded k ops) =? 1
                 then mkStatsResult true (HasUploads emptyStatsResult) f100
                        (AvgUploadTime emptyStatsResult)
                 else mkStatsResult true (HasUploads emptyStatsResult)
                        (cap100 (uptime_raw (replay k ops (newDeviceStats k))))
                        (AvgUploadTime emptyStatsResult)) = true)
        by (by case_match).
      repeat case_match; cbn [HasHeartbeats] in *; split; try done; lia.
    + apply Z.ltb_ge in E0.
      repeat case_match; cbn [HasHeartbeats emptyStatsResult]; split;
        try done; lia.
  - destruct (0 <? Z.of_nat (uploads_recorded k ops)) eqn:E0.
    + apply Z.ltb_lt in E0. cbn [HasUploads]. split; [lia|done].
    + apply Z.ltb_ge in E0. repeat case_match; cbn [HasUploads emptyStatsResult];
        split; try done; lia.
Qed.

(** X6: the stored last heartbeat is the timestamp of the latest heartbeat
    call for the device, whatever the order of the timestamps; when no call
    carried the zero instant, the stored first heartbeat is the timestamp of
    the earliest call. *)
Theorem timestamps_track_history :
  LastHeartbeat d = default Time.zero (last_stamp k ops) /\
  (stamps_nonzero ops = true ->
   FirstHeartbeat d = default Time.zero (first_stamp k ops)).
Proof.
  destruct (reachable_record _ _ _ _ Hd) as [_ ->]. split.
  - by rewrite replay_last.
  - intros Hs. by rewrite replay_first.
Qed.

(** X7: the average [GetStats] reports is the sum of the durations uploaded
    for the device divided by their number, truncated toward zero, as long
    as the sum fits an [int64]. *)
Theorem average_is_truncated_mean :
  (0 < uploads_recorded k ops)%nat ->
  Z.of_nat (uploads_recorded k ops) < 2 ^ 63 ->
  Int64.in_range (upload_total k ops) ->
  AvgUploadTime (stats_of d)
  = Z.quot (upload_total k ops) (Z.of_nat (uploads_recorded k ops)).
Proof.
  intros Hpos Hu Ht. destruct (reachable_record _ _ _ _ Hd) as [_ ->].
  unfold stats_of.
  rewrite replay_upload_count, replay_upload_sum by apply in_range_0.
  cbn [newDeviceStats UploadCount UploadTimeSum]. rewrite !Z.add_0_l.
  rewrite (wrap_small (Z.of_nat _)) by lia. rewrite (wrap_id _ Ht).
  rewrite (proj2 (Z.ltb_lt 0 _)) by lia. cbn [AvgUploadTime].
  unfold Int64.quo. apply wrap_id, quot_in_range; [done|lia].
Qed.
End Reachable.

(** X8: two calls addressed to different devices commute. *)
Theorem calls_on_distinct_devices_commute (a b : Op) (s : Store) :
  fst (op_update a) <> fst (op_update b) ->
  run [a; b] s = run [b; a] s.
Proof.
  intros Hne. apply store_eq, map_eq. intros j. cbn [run].
  rewrite !step_lookup.
  repeat case_decide; simplify_eq; try done.
Qed.

(** * The gateway *)

Lemma split_slash_cons (s : string) : exists p ps, split_slash s = p :: ps.
Proof.
  induction s as [|c s (p & ps & IH)]; cbn [split_slash]; [by eexists _, _|].
  destruct (Ascii.eqb c "/"); [by eexists _, _|]. rewrite IH. by eexists _, _.
Qed.

Lemma split_slash_no_slash (s : string) :
  no_slash s = true -> split_slash s = [s].
Proof.
  induction s as [|c s IH]; cbn [split_slash no_slash]; [done|].
  intros [Hc Hs]%andb_true_iff. apply negb_true_iff in Hc. rewrite Hc.
  by rewrite (IH Hs).
Qed.

Lemma split_slash_app (a b : string) :
  no_slash a = true ->
  split_slash (a ++ String "/" b) = a :: split_slash b.
Proof.
  induction a as [|c a IH]; cbn [split_slash no_slash String.append].
  - intros _. done.
  - intros [Hc Hs]%andb_true_iff. apply negb_true_iff in Hc.
    change (String c a ++ String "/" b)%string
      with (String c (a ++ String "/" b))%string.
    cbn [split_slash]. by rewrite Hc, (IH Hs).
Qed.

(** X9: [extractDeviceID] returns the identifier of a device path, with or
    without a trailing segment, when the identifier contains no slash. *)
Theorem extractDeviceID_device_path (id rest : string) :
  no_slash id = true ->
  extractDeviceID ("/api/v1/devices/" ++ id ++ "/" ++ rest) = id /\
  extractDeviceID ("/api/v1/devices/" ++ id) = id.
Proof.
  intros Hid. unfold extractDeviceID. split.
  - change ("/api/v1/devices/" ++ id ++ "/" ++ rest)%string
      with ("" ++ String "/" ("api" ++ String "/" ("v1" ++ String "/"
              ("devices" ++ String "/" (id ++ String "/" rest)))))%string.
    rewrite !split_slash_app by done.
    destruct (split_slash_cons rest) as (p & ps & ->). done.
  - change ("/api/v1/devices/" ++ id)%string
      with ("" ++ String "/" ("api" ++ String "/" ("v1" ++ String "/"
              ("devices" ++ String "/" id))))%string.
    rewrite !split_slash_app by done.
    by rewrite split_slash_no_slash.
Qed.

Lemma bind_eq {A B} (m : M A) (k : A -> M B) (s : Store) :
  (m ≫= k) s = k (m s).1 (m s).2.
Proof. unfold mbind, M_bind, bind. by destruct (m s). Qed.

Lemma HandleHeartbeat_eq (srv : Server) (path : string)
    (body : option HeartbeatRequest) (now : Time.t) (s : Store) :
  HandleHeartbeat srv path body now s =
  match configErr srv with
  | Some e => (configError e, s)
  | None =>
      match devices s !! extractDeviceID path with
      | None => (writeError StatusNotFound "device not found", s)
      | Some _ =>
          match body with
          | None => (writeError StatusBadRequest "invalid JSON", s)
          | Some req =>
              match validateHeartbeatRequest req now with
              | Some err => (writeError StatusBadRequest err, s)
              | None =>
                  (mkResponse StatusNoContent NoBody,
                   exec (RecordHeartbeat (extractDeviceID path) (hb_SentAt req)) s)
              end
          end
      end
  end.
Proof.
  unfold HandleHeartbeat. destruct (configErr srv); [done|].
  cbv zeta. rewrite bind_eq, DeviceExists_eq. cbn [fst snd].
  destruct (devices s !! extractDeviceID path) as [d|] eqn:E; [|done].
  cbn [negb]. destruct body as [req|]; [|done].
  destruct (validateHeartbeatRequest req now); [done|].
  rewrite bind_eq. unfold exec. by rewrite (RecordHeartbeat_known _ _ _ _ E).
Qed.

Lemma HandlePostStats_eq (srv : Server) (path : string)
    (body : option UploadStatRequest) (s : Store) :
  HandlePostStats srv path body s =
  match configErr srv with
  | Some e => (configError e, s)
  | None =>
      match devices s !! extractDeviceID path with
      | None => (writeError StatusNotFound "device not found", s)
      | Some _ =>
          match body with
          | None => (writeError StatusBadRequest "invalid JSON", s)
          | Some req =>
              match validateUploadStatRequest req with
              | Some err => (writeError StatusBadRequest err, s)
              | None =>
                  (mkResponse StatusNoContent NoBody,
                   exec (RecordUploadStat (extractDeviceID path)
                           (up_UploadTime req)) s)
              end
          end
      end
  end.
Proof.
  unfold HandlePostStats. destruct (configErr srv); [done|].
  cbv zeta. rewrite bind_eq, DeviceExists_eq. cbn [fst snd].
  destruct (devices s !! extractDeviceID path) as [d|] eqn:E; [|done].
  cbn [negb]. destruct body as [req|]; [|done].
  destruct (validateUploadStatRequest req); [done|].
  rewrite bind_eq. unfold exec. by rewrite (RecordUploadStat_known _ _ _ _ E).
Qed.

Lemma HandleGetStats_eq (srv : Server) (path : string) (s : Store) :
  HandleGetStats srv path s =
  match configErr srv with
  | Some e => (configError e, s)
  | None =>
      match devices s !! extractDeviceID path with
      | None => (writeError StatusNotFound "device not found", s)
      | Some d =>
          if negb (HasHeartbeats (stats_of d)) && negb (HasUploads (stats_of d))
          then (mkResponse StatusNoContent NoBody, s)
          else (mkResponse StatusOK
                  (StatsBody (Uptime (stats_of d)) (AvgUploadTime (stats_of d))), s)
      end
  end.
Proof.
  unfold HandleGetStats. destruct (configErr srv); [done|].
  cbv zeta. rewrite bind_eq.
  destruct (devices s !! extractDeviceID path) as [d|] eqn:E.
  - rewrite (GetStats_known _ _ _ E). cbn [fst snd negb]. by case_match.
  - by rewrite (GetStats_unknown _ _ E).
Qed.

Lemma HandleHeartbeat_unchanged
    (srv : Server) (path : string) (body : option HeartbeatRequest)
    (now : Time.t) (s : Store) :
  status (eval (HandleHeartbeat srv path body now) s) <> StatusNoContent ->
  exec (HandleHeartbeat srv path body now) s = s.
Proof.
  unfold eval, exec. rewrite HandleHeartbeat_eq.
  repeat case_match; cbn [fst snd status]; done.
Qed.

Lemma HandlePostStats_unchanged
    (srv : Server) (path : string) (body : option UploadStatRequest) (s : Store) :
  status (eval (HandlePostStats srv path body) s) <> StatusNoContent ->
  exec (HandlePostStats srv path body) s = s.
Proof.
  unfold eval, exec. rewrite HandlePostStats_eq.
  repeat case_match; cbn [fst snd status]; done.
Qed.

Lemma HandleGetStats_unchanged (srv : Server) (path : string) (s : Store) :
  exec (HandleGetStats srv path) s = s.
Proof.
  unfold exec. rewrite HandleGetStats_eq. by repeat case_match.
Qed.

Lemma status_writeError (st : Z) (msg : string) : status (writeError st msg) = st.
Proof. reflexivity. Qed.

(** Closes the case of a handler that answered with an error status. *)
Ltac rejected :=
  unfold StatusNoContent, StatusBadRequest, StatusNotFound,
    StatusInternalServerError;
  split;
  [ split;
    [ discriminate
    | let Hs := fresh "Hs" in
      intros (? & Hs & ? & ? & ? & ?);
      first [ by apply is_Some_None in Hs
            | simplify_eq; first [ congruence | lia ] ] ]
  | split; [ intros ? _ ?; discriminate | done ] ].

(** X10: [HandleHeartbeat] answers 204 exactly when there is no
    configuration error, the device is known, the body decodes, and its
    [sent_at] is neither the zero instant nor more than a minute after the
    clock; it then records the heartbeat, and in every other case leaves the
    store untouched. *)
Theorem HandleHeartbeat_accepts
    (srv : Server) (path : string) (body : option HeartbeatRequest)
    (now : Time.t) (s : Store) :
  (status (eval (HandleHeartbeat srv path body now) s) = StatusNoContent <->
   configErr srv = None /\
   is_Some (devices s !! extractDeviceID path) /\
   exists req, body = Some req /\
     Time.IsZero (hb_SentAt req) = false /\
     Time_After (hb_SentAt req) (Time.Add now Duration.Minute) = false) /\
  (forall req, body = Some req ->
     status (eval (HandleHeartbeat srv path body now) s) = StatusNoContent ->
     exec (HandleHeartbeat srv path body now) s
     = exec (RecordHeartbeat (extractDeviceID path) (hb_SentAt req)) s) /\
  (status (eval (HandleHeartbeat srv path body now) s) <> StatusNoContent ->
   exec (HandleHeartbeat srv path body now) s = s).
Proof.
  unfold eval, exec. rewrite HandleHeartbeat_eq.
  unfold validateHeartbeatRequest.
  destruct (configErr srv) as [e|]; [cbn; rejected|].
  destruct (devices s !! extractDeviceID path) as [d|]; [|cbn; rejected].
  destruct body as [req|]; [|cbn; rejected].
  destruct (Time.IsZero (hb_SentAt req)) eqn:Ez; [cbn; rejected|].
  destruct (Time_After (hb_SentAt req) (Time.Add now Duration.Minute)) eqn:Ea;
    [cbn; rejected|].
  cbn [fst snd status]. split; [|split].
  - split; [|done]. intros _. split; [done|]. split; [by eexists|]. by exists req.
  - by intros r [= <-] _.
  - done.
Qed.

(** X11: [HandlePostStats] answers 204 exactly when there is no
    configuration error, the device is known, the body decodes and its
    [upload_time] lies in (0, 1h]; it then records the upload, and in every
    other case leaves the store untouched. *)
Theorem HandlePostStats_accepts
    (srv : Server) (path : string) (body : option UploadStatRequest) (s : Store) :
  (status (eval (HandlePostStats srv path body) s) = StatusNoContent <->
   configErr srv = None /\
   is_Some (devices s !! extractDeviceID path) /\
   exists req, body = Some req /\
     0 < up_UploadTime req /\ up_UploadTime req <= 3600000000000) /\
  (forall req, body = Some req ->
     status (eval (HandlePostStats srv path body) s) = StatusNoContent ->
     exec (HandlePostStats srv path body) s
     = exec (RecordUploadStat (extractDeviceID path) (up_UploadTime req)) s) /\
  (status (eval (HandlePostStats srv path body) s) <> StatusNoContent ->
   exec (HandlePostStats srv path body) s = s).
Proof.
  unfold eval, exec. rewrite HandlePostStats_eq.
  unfold validateUploadStatRequest, maxUploadTime, Duration.Hour,
    Duration.Minute, Duration.Second.
  destruct (configErr srv) as [e|]; [cbn; rejected|].
  destruct (devices s !! extractDeviceID path) as [d|]; [|cbn; rejected].
  destruct body as [req|]; [|cbn; rejected].
  destruct (up_UploadTime req <=? 0) eqn:Ez;
    [apply Z.leb_le in Ez; cbn; rejected|apply Z.leb_gt in Ez].
  destruct (60 * (60 * 1000000000) <? up_UploadTime req) eqn:Ea;
    [apply Z.ltb_lt in Ea; cbn; rejected|apply Z.ltb_ge in Ea].
  cbn [fst snd status]. split; [|split].
  - split; [|done]. intros _. split; [done|]. split; [by eexists|].
    exists req. split; [done|lia].
  - by intros r [= <-] _.
  - done.
Qed.

(** X12: [HandleGetStats] never changes the store; it answers 200 exactly
    for a known device with a positive heartbeat or upload count, and 204
    exactly for a known device with neither. *)
Theorem HandleGetStats_read_only
    (srv : Server) (path : string) (s : Store) :
  exec (HandleGetStats srv path) s = s /\
  (status (eval (HandleGetStats srv path) s) = StatusOK <->
   configErr srv = None /\
   exists d, devices s !! extractDeviceID path = Some d /\
     (0 < HeartbeatCount d \/ 0 < UploadCount d)) /\
  (status (eval (HandleGetStats srv path) s) = StatusNoContent <->
   configErr srv = None /\
   exists d, devices s !! extractDeviceID path = Some d /\
     HeartbeatCount d <= 0 /\ UploadCount d <= 0).
Proof.
  unfold eval, exec. rewrite HandleGetStats_eq.
  destruct (configErr srv) as [e|].
  { cbn. repeat split; try discriminate; by intros []. }
  destruct (devices s !! extractDeviceID path) as [d|].
  2:{ cbn. repeat split; try discriminate; by intros [_ (? & ? & _)]. }
  unfold stats_of.
  destruct (0 <? HeartbeatCount d) eqn:Eh, (0 <? UploadCount d) eqn:Eu;
    repeat case_match; cbn;
    try apply Z.ltb_lt in Eh; try apply Z.ltb_ge in Eh;
    try apply Z.ltb_lt in Eu; try apply Z.ltb_ge in Eu;
    (split; [done|]);
    split; split; try discriminate; try done;
    try (intros [_ (d' & [= <-] & ?)]; lia);
    try (intros _; split; [done|]; exists d; split; [done|]; lia).
Qed.

Lemma route_eq (srv : Server) (r : Request) :
  route srv r =
  if HasSuffix (req_path r) "/heartbeat" && String.eqb (req_method r) "POST"
  then HandleHeartbeat srv (req_path r) (req_heartbeat r) (req_now r)
  else if HasSuffix (req_path r) "/stats" then
    if String.eqb (req_method r) "POST"
    then HandlePostStats srv (req_path r) (req_upload r)
    else if String.eqb (req_method r) "GET"
         then HandleGetStats srv (req_path r)
         else ret (mkResponse StatusNotFound PageNotFound)
  else ret (mkResponse StatusNotFound PageNotFound).
Proof. reflexivity. Qed.

Lemma Router_eq (mux : ServeMux) (srv : Server) (r : Request) (s : Store) :
  Router mux srv r s =
  match mux r with
  | Some resp => (resp, s)
  | None => route srv r s
  end.
Proof. unfold Router. by destruct (mux r). Qed.

(** X13: with a configuration error, no request changes the store; a
    request the mux hands to the registered function is answered with
    status 500 and the message "server configuration error: " followed by
    the error when it is routed to a handler (POST on [/heartbeat], POST or
    GET on [/stats]), and with the 404 page when it is not; a request the
    mux answers itself gets the mux's response. *)
Theorem config_error_blocks_everything
    (mux : ServeMux) (srv : Server) (e : string) (r : Request) (s : Store) :
  configErr srv = Some e ->
  exec (Router mux srv r) s = s /\
  eval (Router mux srv r) s
  = match mux r with
    | Some resp => resp
    | None =>
        if routed r
        then mkResponse 500 (ErrorBody ("server configuration error: " ++ e))
        else mkResponse 404 PageNotFound
    end.
Proof.
  intros He. unfold exec, eval, routed. rewrite Router_eq.
  destruct (mux r); [done|]. rewrite route_eq.
  repeat case_match;
    rewrite ?HandleHeartbeat_eq, ?HandlePostStats_eq, ?HandleGetStats_eq, ?He;
    cbn in *; try done.
Qed.

(** X14: a request changes the store only if it is a POST answered with
    204. *)
Theorem only_accepted_posts_mutate (srv : Server) (r : Request) (s : Store) :
  status (eval (route srv r) s) <> StatusNoContent \/ req_method r <> "POST" ->
  exec (route srv r) s = s.
Proof.
  rewrite route_eq.
  destruct (HasSuffix (req_path r) "/heartbeat" && String.eqb (req_method r) "POST")
    eqn:E1.
  - apply andb_true_iff in E1 as [_ Em%String.eqb_eq].
    intros [H|H]; [|done]. by apply HandleHeartbeat_unchanged.
  - destruct (HasSuffix (req_path r) "/stats"); [|done].
    destruct (String.eqb (req_method r) "POST") eqn:Em.
    + apply String.eqb_eq in Em.
      intros [H|H]; [|done]. by apply HandlePostStats_unchanged.
    + intros _. destruct (String.eqb (req_method r) "GET"); [|done].
      apply HandleGetStats_unchanged.
Qed.

(** * The store behind the gateway *)

Lemma step_unknown (op : Op) (s : Store) :
  devices s !! fst (op_update op) = None -> exec (step op) s = s.
Proof.
  intros H. unfold exec. destruct op as [k t|k u]; cbn [step op_update fst] in *.
  - by rewrite (RecordHeartbeat_unknown _ _ _ H).
  - by rewrite (RecordUploadStat_unknown _ _ _ H).
Qed.

Lemma route_effect (srv : Server) (r : Request) (s : Store) :
  exec (route srv r) s =
  match effect_of srv r with
  | Some op => exec (step op) s
  | None => s
  end.
Proof.
  unfold effect_of. rewrite route_eq. unfold exec at 1.
  destruct (HasSuffix (req_path r) "/heartbeat" && String.eqb (req_method r) "POST").
  - rewrite HandleHeartbeat_eq. destruct (configErr srv); [done|].
    destruct (req_heartbeat r) as [req|];
      [destruct (validateHeartbeatRequest req (req_now r))|];
      destruct (devices s !! extractDeviceID (req_path r)) eqn:E; try done.
    cbn [snd]. symmetry. by apply step_unknown.
  - destruct (HasSuffix (req_path r) "/stats"); cbn [andb];
      [|by destruct (configErr srv)].
    destruct (String.eqb (req_method r) "POST").
    + rewrite HandlePostStats_eq. destruct (configErr srv); [done|].
      destruct (req_upload r) as [req|];
        [destruct (validateUploadStatRequest req)|];
        destruct (devices s !! extractDeviceID (req_path r)) eqn:E; try done.
      cbn [snd]. symmetry. by apply step_unknown.
    + destruct (String.eqb (req_method r) "GET").
      * pose proof (HandleGetStats_unchanged srv (req_path r) s) as H.
        unfold exec in H. rewrite H. by destruct (configErr srv).
      * by destruct (configErr srv).
Qed.

Lemma effect_admitted (srv : Server) (r : Request) (op : Op) :
  effect_of srv r = Some op ->
  stamps_nonzero [op] = true /\ durations_bounded [op] = true.
Proof.
  unfold effect_of, validateHeartbeatRequest, validateUploadStatRequest.
  intros H. repeat case_match; simplify_eq; cbn.
  - split; [|done]. by rewrite andb_true_r, negb_true_iff.
  - split; [done|]. rewrite andb_true_r. apply andb_true_iff.
    split; [apply Z.ltb_lt|apply Z.leb_le]; lia.
Qed.

Lemma serve_cons (srv : Server) (r : Request) (rs : list Request) (s : Store) :
  exec (serve srv (r :: rs)) s = exec (serve srv rs) (exec (route srv r) s) /\
  eval (serve srv (r :: rs)) s
  = eval (route srv r) s :: eval (serve srv rs) (exec (route srv r) s).
Proof.
  unfold exec, eval. cbn [serve]. rewrite !bind_eq. done.
Qed.

Lemma serve_run (srv : Server) (rs : list Request) (s : Store) :
  exec (serve srv rs) s = run (effects srv rs) s /\
  stamps_nonzero (effects srv rs) = true /\
  durations_bounded (effects srv rs) = true /\
  length (eval (serve srv rs) s) = length rs.
Proof.
  revert s. induction rs as [|r rs IH]; intros s; [done|].
  destruct (serve_cons srv r rs s) as [-> ->].
  destruct (IH (exec (route srv r) s)) as (IH1 & IH2 & IH3 & IH4).
  cbn [length]. rewrite IH4, IH1, route_effect.
  unfold effects in *. cbn [omap list_omap].
  destruct (effect_of srv r) as [op|] eqn:E; [|done].
  destruct (effect_admitted _ _ _ E) as [H1 H2].
  unfold stamps_nonzero, durations_bounded in *. cbn [run forallb] in *.
  rewrite andb_true_r in H1, H2. by rewrite H1, H2, IH2, IH3.
Qed.

Lemma Router_call_spec (mux : ServeMux) (srv : Server) (r : Request) (s : Store) :
  exec (Router mux srv r) s
  = match Router_call mux srv r s with
    | Some op => exec (step op) s
    | None => s
    end /\
  accepted mux (r, eval (Router mux srv r) s)
  = match Router_call mux srv r s with Some _ => true | None => false end.
Proof.
  unfold accepted, Router_call, exec, eval. rewrite Router_eq. cbn [fst snd].
  destruct (mux r) as [resp|]; [done|].
  unfold effect_of. rewrite route_eq.
  destruct (HasSuffix (req_path r) "/heartbeat" && String.eqb (req_method r) "POST")
    eqn:E1.
  - apply andb_true_iff in E1 as [_ Em]. rewrite Em. cbn [andb].
    rewrite HandleHeartbeat_eq. destruct (configErr srv); [done|].
    destruct (req_heartbeat r) as [req|];
      [destruct (validateHeartbeatRequest req (req_now r))|];
      cbn [op_device]; rewrite ?DeviceExists_eq; cbn [fst];
      destruct (devices s !! extractDeviceID (req_path r)) eqn:E; done.
  - destruct (HasSuffix (req_path r) "/stats"); cbn [andb];
      [|by destruct (configErr srv), (String.eqb (req_method r) "POST")].
    destruct (String.eqb (req_method r) "POST").
    + rewrite HandlePostStats_eq. destruct (configErr srv); [done|].
      destruct (req_upload r) as [req|];
        [destruct (validateUploadStatRequest req)|];
        cbn [op_device]; rewrite ?DeviceExists_eq; cbn [fst];
        destruct (devices s !! extractDeviceID (req_path r)) eqn:E; done.
    + destruct (String.eqb (req_method r) "GET").
      * pose proof (HandleGetStats_unchanged srv (req_path r) s) as H.
        unfold exec in H. rewrite H. by destruct (configErr srv).
      * by destruct (configErr srv).
Qed.

Lemma Router_call_admitted (mux : ServeMux) (srv : Server) (r : Request)
    (s : Store) (op : Op) :
  Router_call mux srv r s = Some op ->
  is_Some (devices s !! op_device op) /\
  stamps_nonzero [op] = true /\ durations_bounded [op] = true.
Proof.
  unfold Router_call. destruct (mux r); [done|].
  destruct (effect_of srv r) as [op'|] eqn:E; [|done].
  unfold eval. rewrite DeviceExists_eq. cbn [fst].
  destruct (devices s !! op_device op') eqn:Ed; [|done]. intros [= <-].
  split; [by rewrite Ed|]. by apply (effect_admitted srv r).
Qed.

Lemma serve_Router_cons (mux : ServeMux) (srv : Server) (r : Request)
    (rs : list Request) (s : Store) :
  exec (serve_Router mux srv (r :: rs)) s
  = exec (serve_Router mux srv rs) (exec (Router mux srv r) s) /\
  eval (serve_Router mux srv (r :: rs)) s
  = eval (Router mux srv r) s
    :: eval (serve_Router mux srv rs) (exec (Router mux srv r) s).
Proof.
  unfold exec, eval. cbn [serve_Router]. rewrite !bind_eq. done.
Qed.

Lemma step_known (op : Op) (s : Store) (k : string) :
  is_Some (devices (exec (step op) s) !! k) <-> is_Some (devices s !! k).
Proof. by rewrite <- !elem_of_dom, step_dom. Qed.

(** X15: whatever the mux does, serving a sequence of requests through the
    router leaves the store that the store calls made on the way produce;
    every such call addresses a registered device, every recorded heartbeat
    has a non-zero timestamp and every recorded upload time lies in
    (0, 1h]; there is one response per request, and as many calls as there
    are POST requests that the mux handed over and that were answered 204. *)
Theorem serve_is_run_of_admitted_calls
    (mux : ServeMux) (srv : Server) (rs : list Request) (s : Store) :
  exec (serve_Router mux srv rs) s = run (Router_calls mux srv rs s) s /\
  (forall op, op ∈ Router_calls mux srv rs s ->
     is_Some (devices s !! op_device op)) /\
  stamps_nonzero (Router_calls mux srv rs s) = true /\
  durations_bounded (Router_calls mux srv rs s) = true /\
  length (eval (serve_Router mux srv rs) s) = length rs /\
  length (Router_calls mux srv rs s)
  = length (List.filter (accepted mux)
              (combine rs (eval (serve_Router mux srv rs) s))).
Proof.
  revert s. induction rs as [|r rs IH]; intros s.
  { repeat split; try done. intros op H. by apply elem_of_nil in H. }
  destruct (serve_Router_cons mux srv r rs s) as [-> ->].
  destruct (Router_call_spec mux srv r s) as [Hx Ha].
  cbn [Router_calls combine List.filter length]. rewrite Ha, Hx.
  destruct (Router_call mux srv r s) as [op|] eqn:E.
  - destruct (Router_call_admitted _ _ _ _ _ E) as (Hk & H1 & H2).
    destruct (IH (exec (step op) s)) as (IH1 & IH2 & IH3 & IH4 & IH5 & IH6).
    unfold stamps_nonzero, durations_bounded in *. cbn [run forallb length] in *.
    rewrite andb_true_r in H1, H2. rewrite H1, H2, IH3, IH4, IH5, IH6, IH1.
    repeat split; try done.
    intros op' [->|Hin]%elem_of_cons; [done|].
    apply (step_known op). by apply IH2.
  - destruct (IH s) as (IH1 & IH2 & IH3 & IH4 & IH5 & IH6).
    cbn [length]. by rewrite IH5.
Qed.

Lemma bounded_positive (ops : list Op) :
  durations_bounded ops = true -> durations_positive ops = true.
Proof.
  unfold durations_bounded, durations_positive.
  induction ops as [|[k t|k u] ops IH]; cbn [forallb]; [done|done|].
  intros [[H _]%andb_true_iff Hs]%andb_true_iff. by rewrite H, IH.
Qed.

Lemma upload_total_upper (k : string) (ops : list Op) :
  durations_bounded ops = true ->
  upload_total k ops <= Z.of_nat (uploads_recorded k ops) * maxUploadTime.
Proof.
  unfold maxUploadTime, Duration.Hour, Duration.Minute, Duration.Second.
  induction ops as [|[k' t|k' u] ops IH]; cbn [durations_bounded forallb
    upload_total uploads_recorded]; [lia|done|].
  intros [[H1 H2]%andb_true_iff Hs]%andb_true_iff.
  apply Z.ltb_lt in H1. apply Z.leb_le in H2.
  unfold maxUploadTime, Duration.Hour, Duration.Minute, Duration.Second in H2.
  specialize (IH Hs). case_decide; lia.
Qed.

Lemma last_stamp_none (k : string) (ops : list Op) :
  last_stamp k ops = None <-> heartbeats_recorded k ops = 0%nat.
Proof.
  induction ops as [|[k' t|k' u] ops IH]; cbn [last_stamp heartbeats_recorded];
    [done| |done].
  destruct (last_stamp k ops) as [t0|].
  - split; [done|]. intros H. exfalso.
    assert (H0 : heartbeats_recorded k ops = 0%nat) by lia.
    by apply IH in H0.
  - case_decide; cbn; [split; [done|lia]|]. by rewrite <- IH.
Qed.

Lemma last_stamp_nonzero (k : string) (ops : list Op) (t : Time.t) :
  stamps_nonzero ops = true -> last_stamp k ops = Some t ->
  Time.IsZero t = false.
Proof.
  induction ops as [|[k' t'|k' u] ops IH]; cbn [last_stamp stamps_nonzero forallb];
    [done| |done].
  intros [H1%negb_true_iff Hs]%andb_true_iff.
  destruct (last_stamp k ops) as [t0|]; [intros [= <-]; by apply IH|].
  case_decide; [|done]. by intros [= <-].
Qed.

Section BehindTheGateway.
Variables (srv : Server) (records : list (list string)) (rs : list Request)
          (k : string) (d : DeviceStats).
Hypothesis Hd : devices (exec (serve srv rs) (initial records)) !! k = Some d.

(** X16: behind the gateway, a device's heartbeat count is zero exactly
    when its first heartbeat is unset, and exactly when its last heartbeat
    is unset (below 2^63 heartbeats). *)
Theorem gateway_heartbeat_invariant :
  Z.of_nat (heartbeats_recorded k (effects srv rs)) < 2 ^ 63 ->
  (HeartbeatCount d = 0 <-> Time.IsZero (FirstHeartbeat d) = true) /\
  (HeartbeatCount d = 0 <-> Time.IsZero (LastHeartbeat d) = true).
Proof.
  intros Hn. destruct (serve_run srv rs (initial records)) as (Hrun & Hs & _ & _).
  rewrite Hrun in Hd. destruct (reachable_record _ _ _ _ Hd) as [_ ->].
  rewrite replay_heartbeat_count by apply in_range_0.
  cbn [newDeviceStats HeartbeatCount]. rewrite Z.add_0_l, wrap_small by lia.
  rewrite replay_last. cbn [newDeviceStats LastHeartbeat].
  rewrite (replay_first_zero_iff k _ (newDeviceStats k) Hs eq_refl).
  split; [lia|].
  destruct (last_stamp k (effects srv rs)) as [t|] eqn:El;
    cbn [default from_option id].
  - rewrite (last_stamp_nonzero _ _ _ Hs El).
    assert (heartbeats_recorded k (effects srv rs) <> 0%nat)
      by (rewrite <- last_stamp_none; congruence).
    split; [lia|done].
  - apply last_stamp_none in El. split; [done|lia].
Qed.

(** X17: behind the gateway, with at most 2562047 uploads for a device,
    its upload count is zero exactly when its upload sum is zero, and the
    sum is the exact, non-negative total of the uploaded durations. *)
Theorem gateway_upload_invariant :
  Z.of_nat (uploads_recorded k (effects srv rs)) <= 2562047 ->
  (UploadCount d = 0 <-> UploadTimeSum d = 0) /\
  UploadTimeSum d = upload_total k (effects srv rs) /\
  0 <= UploadTimeSum d.
Proof.
  intros Hn. destruct (serve_run srv rs (initial records)) as (Hrun & _ & Hb & _).
  rewrite Hrun in Hd. destruct (reachable_record _ _ _ _ Hd) as [_ ->].
  pose proof (upload_total_upper k _ Hb) as Hup.
  pose proof (upload_total_bounds k _ (bounded_positive _ Hb)) as Hlo.
  unfold maxUploadTime, Duration.Hour, Duration.Minute, Duration.Second in Hup.
  rewrite replay_upload_count, replay_upload_sum by apply in_range_0.
  cbn [newDeviceStats UploadCount UploadTimeSum]. rewrite !Z.add_0_l.
  rewrite !wrap_small by lia.
  split; [|split; [done|lia]]. split.
  - intros H0. apply upload_total_zero. lia.
  - lia.
Qed.
End BehindTheGateway.

(** * Witnesses of the history and gateway theorems *)

Lemma reachable_record_shape_witness :
  ID (heartbeat_update baseTime (newDeviceStats "device-1")) = "device-1" /\
  Int64.in_range (HeartbeatCount (heartbeat_update baseTime (newDeviceStats "device-1"))) /\
  Int64.in_range (UploadCount (heartbeat_update baseTime (newDeviceStats "device-1"))) /\
  Int64.in_range (UploadTimeSum (heartbeat_update baseTime (newDeviceStats "device-1"))).
Proof.
  apply (reachable_record_shape test_rows [OpHeartbeat "device-1" baseTime]
           "device-1").
  reflexivity.
Defined.

Lemma counts_track_history_witness :
  HeartbeatCount (mkDeviceStats "device-1" 2 baseTime
                    (Time.Add baseTime (mins 1)) 2 (secs 20)) = 2 /\
  UploadCount (mkDeviceStats "device-1" 2 baseTime
                 (Time.Add baseTime (mins 1)) 2 (secs 20)) = 2.
Proof.
  pose proof (counts_track_history test_rows
           [OpHeartbeat "device-1" baseTime;
            OpHeartbeat "device-1" (Time.Add baseTime (mins 1));
            OpUpload "device-1" (secs 5);
            OpUpload "device-1" (secs 15)]
           "device-1"
           (mkDeviceStats "device-1" 2 baseTime (Time.Add baseTime (mins 1))
              2 (secs 20))
           eq_refl eq_refl eq_refl) as (H1 & H2 & _).
  exact (conj H1 H2).
Defined.

Lemma timestamps_track_history_witness :
  LastHeartbeat (mkDeviceStats "device-1" 2 (Time.Add baseTime (mins 10))
                   baseTime 0 0) = baseTime /\
  (stamps_nonzero [OpHeartbeat "device-1" (Time.Add baseTime (mins 10));
                   OpHeartbeat "device-1" baseTime] = true ->
   FirstHeartbeat (mkDeviceStats "device-1" 2 (Time.Add baseTime (mins 10))
                     baseTime 0 0) = Time.Add baseTime (mins 10)).
Proof.
  apply (timestamps_track_history test_rows
           [OpHeartbeat "device-1" (Time.Add baseTime (mins 10));
            OpHeartbeat "device-1" baseTime]
           "device-1").
  reflexivity.
Defined.

Lemma average_is_truncated_mean_witness :
  AvgUploadTime (stats_of (mkDeviceStats "device-1" 0 Time.zero Time.zero 3 (secs 30)))
  = Z.quot (secs 30) 3.
Proof.
  apply (average_is_truncated_mean test_rows
           [OpUpload "device-1" (secs 5); OpUpload "device-1" (secs 10);
            OpUpload "device-1" (secs 15)]
           "device-1").
  - reflexivity.
  - simpl. lia.
  - reflexivity.
  - vm_compute. split; discriminate.
Defined.

Lemma calls_on_distinct_devices_commute_witness :
  run [OpHeartbeat "device-1" baseTime; OpUpload "device-2" (secs 5)]
      (initial test_rows)
  = run [OpUpload "device-2" (secs 5); OpHeartbeat "device-1" baseTime]
      (initial test_rows).
Proof.
  apply (calls_on_distinct_devices_commute
           (OpHeartbeat "device-1" baseTime) (OpUpload "device-2" (secs 5))).
  simpl. discriminate.
Defined.

Lemma extractDeviceID_witness :
  extractDeviceID "/api/v1/devices/60-6b-44-84-dc-64/heartbeat"
  = "60-6b-44-84-dc-64" /\
  extractDeviceID "/api/v1/devices/60-6b-44-84-dc-64" = "60-6b-44-84-dc-64".
Proof.
  apply (extractDeviceID_device_path "60-6b-44-84-dc-64" "heartbeat").
  reflexivity.
Defined.

Lemma gateway_heartbeat_invariant_witness :
  (HeartbeatCount (mkDeviceStats "device-1" 1 baseTime baseTime 1 5000000000) = 0
   <-> Time.IsZero baseTime = true) /\
  (HeartbeatCount (mkDeviceStats "device-1" 1 baseTime baseTime 1 5000000000) = 0
   <-> Time.IsZero baseTime = true).
Proof.
  apply (gateway_heartbeat_invariant (NewServer None) test_rows
           gateway_requests "device-1"
           (mkDeviceStats "device-1" 1 baseTime baseTime 1 5000000000)).
  - reflexivity.
  - reflexivity.
Defined.

Lemma gateway_upload_invariant_witness :
  (UploadCount (mkDeviceStats "device-1" 1 baseTime baseTime 1 5000000000) = 0
   <-> UploadTimeSum (mkDeviceStats "device-1" 1 baseTime baseTime 1 5000000000) = 0) /\
  UploadTimeSum (mkDeviceStats "device-1" 1 baseTime baseTime 1 5000000000)
  = upload_total "device-1" (effects (NewServer None) gateway_requests) /\
  0 <= UploadTimeSum (mkDeviceStats "device-1" 1 baseTime baseTime 1 5000000000).
Proof.
  apply (gateway_upload_invariant (NewServer None) test_rows
           gateway_requests "device-1"
           (mkDeviceStats "device-1" 1 baseTime baseTime 1 5000000000)).
  - reflexivity.
  - vm_compute. discriminate.
Defined.

(** * The lock discipline *)

Lemma all_done_outside (l : list Concurrent.Thread) :
  forallb Concurrent.is_done l = true ->
  Concurrent.total Concurrent.in_cs l = 0.
Proof.
  induction l as [|t l IH]; cbn [forallb Concurrent.total foldr]; [done|].
  intros [Ht Hl]%andb_true_iff. fold (Concurrent.total Concurrent.in_cs l).
  rewrite (IH Hl). unfold Concurrent.is_done in Ht. unfold Concurrent.in_cs.
  by destruct (Concurrent.pc t).
Qed.

(** X18: whatever the interleaving of goroutines calling [RecordHeartbeat]
    for a known device, at most one of them is between [Lock] and [Unlock],
    the lock is held exactly while one is, some goroutine can always move
    until all have returned, and the lock is free when all have. *)
Theorem lock_discipline
    (deviceID : string) (stamps : list Time.t) (s : Store) (device : DeviceStats)
    (sched : list nat) (c' : Concurrent.Config) :
  devices s !! deviceID = Some device ->
  Int64.in_range (HeartbeatCount device) ->
  Concurrent.run_schedule sched (Concurrent.start deviceID stamps s) = Some c' ->
  Concurrent.total Concurrent.in_cs (Concurrent.threads c')
  = (if Concurrent.mu c' then 1 else 0) /\
  (Concurrent.all_done c' = false ->
   exists i c'', Concurrent.sched_step i c' = Some c'') /\
  (Concurrent.all_done c' = true -> Concurrent.mu c' = false).
Proof.
  intros Hd Hr Hrun.
  pose proof (Inv_start deviceID _ stamps s device Hd eq_refl Hr) as HI.
  destruct (Inv_run _ _ sched _ c' HI Hrun) as [HI' _].
  split; [|split].
  - by destruct HI' as (d & _ & _ & Hcs & _).
  - by apply (Inv_progress deviceID (HeartbeatCount device)).
  - intros Hdone. destruct HI' as (d & _ & _ & Hcs & _).
    rewrite (all_done_outside _ Hdone) in Hcs. by destruct (Concurrent.mu c').
Qed.

Lemma lock_discipline_witness :
  Concurrent.total Concurrent.in_cs
    (Concurrent.threads
       (Concurrent.outcome (replicate 3 2%nat)
          (Concurrent.start "device-1" three_stamps (initial test_rows))))
  = (if Concurrent.mu
          (Concurrent.outcome (replicate 3 2%nat)
             (Concurrent.start "device-1" three_stamps (initial test_rows)))
     then 1 else 0).
Proof.
  apply (lock_discipline "device-1" three_stamps (initial test_rows)
           (newDeviceStats "device-1") (replicate 3 2%nat)).
  - reflexivity.
  - vm_compute. split; discriminate.
  - reflexivity.
Defined.

Lemma solo_call_witness :
  Concurrent.run_schedule (replicate 7 1%nat)
    (Concurrent.start "device-1" three_stamps (initial test_rows))
  = Some (Concurrent.mkConfig false
            (exec (RecordHeartbeat "device-1" (Time.Add baseTime (mins 1)))
               (initial test_rows))
            (<[1%nat := Concurrent.mkThread "device-1" (Time.Add baseTime (mins 1))
                          (Concurrent.Done true)]>
               (Concurrent.threads
                  (Concurrent.start "device-1" three_stamps (initial test_rows))))).
Proof.
  apply (solo_call_is_RecordHeartbeat
           (Concurrent.start "device-1" three_stamps (initial test_rows)) 1
           (Concurrent.mkThread "device-1" (Time.Add baseTime (mins 1))
              Concurrent.AtLock)
           (newDeviceStats "device-1")); reflexivity.
Defined.

Lemma only_accepted_posts_mutate_witness :
  exec (route (NewServer None)
          (mkRequest "GET" "/api/v1/devices/device-1/stats" None None baseTime))
       scen_combined
  = scen_combined.
Proof.
  apply (only_accepted_posts_mutate (NewServer None)
           (mkRequest "GET" "/api/v1/devices/device-1/stats" None None baseTime)
           scen_combined).
  right. discriminate.
Defined.

Lemma config_error_witness :
  exec (Router
          (fun r => if String.prefix "/api/v1/devices/" (req_path r)
                    then None
                    else Some (mkResponse StatusNotFound PageNotFound))
          (NewServer (Some "failed to load devices.csv"))
          (mkRequest "POST" "/api/v1/devices/device-1/heartbeat"
             (Some (mkHeartbeatRequest baseTime)) None baseTime))
       NewStore
  = NewStore /\
  eval (Router
          (fun r => if String.prefix "/api/v1/devices/" (req_path r)
                    then None
                    else Some (mkResponse StatusNotFound PageNotFound))
          (NewServer (Some "failed to load devices.csv"))
          (mkRequest "POST" "/api/v1/devices/device-1/heartbeat"
             (Some (mkHeartbeatRequest baseTime)) None baseTime))
       NewStore
  = mkResponse 500
      (ErrorBody "server configuration error: failed to load devices.csv").
Proof.
  apply (config_error_blocks_everything
           (fun r => if String.prefix "/api/v1/devices/" (req_path r)
                     then None
                     else Some (mkResponse StatusNotFound PageNotFound))
           (NewServer (Some "failed to load devices.csv"))
           "failed to load devices.csv"
           (mkRequest "POST" "/api/v1/devices/device-1/heartbeat"
              (Some (mkHeartbeatRequest baseTime)) None baseTime)
           NewStore).
  reflexivity.
Defined.
